(** * Hangfire wishlist: the prioritization engine of [App.tsx]

    A shallow embedding of the voting, budget, trend and ranking logic of the
    [MainApp] component, with the React state kept in one record and every
    handler written as a transition on it.

    Conventions of the embedding:
    - a JS [number] that holds a count or an amount is a [Z];
    - a [Date] is its epoch value in milliseconds, a [Z];
    - an optional field ([link?], [options?], ...) is an [option];
    - a handler runs on the state committed by the last render, so the values
      its closure captured ([items], [remainingPoints], [sortMode],
      [selectedItem]) are the fields of the state it is applied to;
    - [setTimeout] appends the due time of its callback to a list of pending
      timers; [elapse] runs the callbacks that are due. *)

From Stdlib Require Import ZArith List String Ascii Bool Lia.
From Stdlib Require Import Sorting.Permutation Sorting.Sorted.
From Stdlib Require Import Structures.OrderedTypeEx DecimalString.
From Stdlib Require DecimalZ.
Import ListNotations.

Local Open Scope string_scope.
Local Open Scope Z_scope.

(** ** Calendar days: [Date.prototype.toISOString] and [getTodayKey] *)

Module IsoDate.

Definition msPerDay : Z := 24 * 60 * 60 * 1000.

(** Day number of an instant (days since 1970-01-01, UTC). *)
Definition dayOf (ms : Z) : Z := ms / msPerDay.

(** Proleptic Gregorian date of a day number: (year, month, day). *)
Definition civil (day : Z) : Z * Z * Z :=
  let z := day + 719468 in
  let era := z / 146097 in
  let doe := z - era * 146097 in
  let yoe := (doe - doe / 1460 + doe / 36524 - doe / 146096) / 365 in
  let doy := doe - (365 * yoe + yoe / 4 - yoe / 100) in
  let mp := (5 * doy + 2) / 153 in
  let d := doy - (153 * mp + 2) / 5 + 1 in
  let m := if mp <? 10 then mp + 3 else mp - 9 in
  let y := yoe + era * 400 + (if m <=? 2 then 1 else 0) in
  (y, m, d).

Definition digit (n : Z) : ascii :=
  ascii_of_N (48 + Z.to_N (n mod 10)).

(** [n] written with exactly [w] decimal digits, zero padded. *)
Fixpoint pad (w : nat) (n : Z) : string :=
  match w with
  | O => EmptyString
  | S w' => pad w' (n / 10) ++ String (digit n) EmptyString
  end.

(** The year part of [toISOString]: four digits for years 0 to 9999, a sign
    and six digits otherwise. *)
Definition yearString (y : Z) : string :=
  if (0 <=? y) && (y <=? 9999) then pad 4 y
  else (if y <? 0 then "-" else "+") ++ pad 6 (Z.abs y).

(** The date part of [toISOString], up to the letter T. *)
Definition isoDatePart (day : Z) : string :=
  let '(y, m, d) := civil day in
  yearString y ++ "-" ++ pad 2 m ++ "-" ++ pad 2 d.

(** [date.toISOString().slice(0, 10)]. *)
Definition toISOStringSlice10 (ms : Z) : string :=
  substring 0 10 (isoDatePart (dayOf ms)).

(** The key of a day number, as [getTodayKey] would produce it on that day. *)
Definition keyOfDay (day : Z) : string :=
  substring 0 10 (isoDatePart day).

(** The steps of [civil], named, for the proofs about it. *)
Definition yoeOf (doe : Z) : Z :=
  (doe - doe / 1460 + doe / 36524 - doe / 146096) / 365.
Definition yearStart (yoe : Z) : Z := 365 * yoe + yoe / 4 - yoe / 100.
Definition mpOf (doy : Z) : Z := (5 * doy + 2) / 153.
Definition domOf (doy : Z) : Z := doy - (153 * mpOf doy + 2) / 5 + 1.
Definition monthOf (mp : Z) : Z := if mp <? 10 then mp + 3 else mp - 9.

Definition civilOf (era doe : Z) : Z * Z * Z :=
  let yoe := yoeOf doe in
  let doy := doe - yearStart yoe in
  let m := monthOf (mpOf doy) in
  (yoe + era * 400 + (if m <=? 2 then 1 else 0), m, domOf doy).

(** The digits of a date read as one number: year, month and day. *)
Definition numOfCivil (c : Z * Z * Z) : Z :=
  let '(y, m, d) := c in y * 10000 + m * 100 + d.

Definition dateNum (day : Z) : Z := numOfCivil (civil day).

(** 0000-01-01 and 9999-12-31: the years [toISOString] prints with four
    digits, in which the keys sort like the days. *)
Definition firstDay : Z := -719528.
Definition lastDay : Z := 2932896.

Definition inRange (day : Z) : Prop := firstDay <= day <= lastDay.

End IsoDate.

(** [getTodayKey], with the clock reading passed in. *)
Definition getTodayKey (now : Z) : string :=
  IsoDate.toISOStringSlice10 now.

(** [a >= b] on JS strings: code units compared left to right. *)
Definition str_ge (a b : string) : bool := String.leb b a.

(** ** Data model *)

Module ItemOption.
Record t : Type := mk {
  id : string;
  name : string;
  price : Z;
  link : option string;
  imageUrl : option string
}.
End ItemOption.

(** One element of [pointHistory]: [{ date: string; points: number }]. *)
Module PointEntry.
Record t : Type := mk {
  date : string;
  points : Z
}.
End PointEntry.

(** [dateAdded] and [datePurchased] hold the ISO string of an instant; the
    record keeps the instant itself, which is what [new Date(s).getTime()]
    gives back. *)
Module WishlistItem.
Record t : Type := mk {
  id : string;
  name : string;
  price : Z;
  link : option string;
  imageUrl : option string;
  points : Z;
  dateAdded : Z;
  isPurchased : bool;
  datePurchased : option Z;
  options : option (list ItemOption.t);
  selectedOptionId : option string;
  pointHistory : option (list PointEntry.t)
}.

Definition with_points_history (it : t) (p : Z) (h : list PointEntry.t) : t :=
  mk (id it) (name it) (price it) (link it) (imageUrl it) p (dateAdded it)
     (isPurchased it) (datePurchased it) (options it) (selectedOptionId it)
     (Some h).

Definition with_display (it : t) (o : ItemOption.t) : t :=
  mk (id it) (ItemOption.name o) (ItemOption.price o) (ItemOption.link o)
     (ItemOption.imageUrl o) (points it) (dateAdded it) (isPurchased it)
     (datePurchased it) (options it) (selectedOptionId it) (pointHistory it).

Definition with_options (it : t) (os : list ItemOption.t) (sel : option string) : t :=
  mk (id it) (name it) (price it) (link it) (imageUrl it) (points it)
     (dateAdded it) (isPurchased it) (datePurchased it) (Some os) sel
     (pointHistory it).

Definition with_purchased (it : t) (b : bool) (d : option Z) : t :=
  mk (id it) (name it) (price it) (link it) (imageUrl it) (points it)
     (dateAdded it) b d (options it) (selectedOptionId it) (pointHistory it).
End WishlistItem.

Definition Item : Type := WishlistItem.t.

Definition MAX_DAILY_POINTS : Z := 15.

Inductive SortMode : Type := SortPoints | SortDate | SortPrice.

Definition SortMode_eqb (a b : SortMode) : bool :=
  match a, b with
  | SortPoints, SortPoints | SortDate, SortDate | SortPrice, SortPrice => true
  | _, _ => false
  end.

(** The part of the component state the engine reads and writes. [timers]
    are the due times of the pending [setTimeout] callbacks of the two vote
    handlers, oldest first. *)
Record State : Type := mkState {
  items : list Item;
  remainingPoints : Z;
  lastResetDate : string;
  hidePurchased : bool;
  sortMode : SortMode;
  selectedItem : option Item;
  isSortingFrozen : bool;
  frozenItems : list Item;
  timers : list Z
}.

(** Calls to [Haptics] made by a handler, in source order. *)
Inductive Haptic : Type := NotificationWarning | ImpactLight.

(** ** Trend classifier *)

Inductive Trend : Type := none | trending | hot.

Definition sevenDaysAgoKey (now : Z) : string :=
  IsoDate.toISOStringSlice10 (now - 7 * 24 * 60 * 60 * 1000).

(** The loop of [getWeeklyPoints] over the history array. *)
Fixpoint weeklyLoop (key : string) (h : list PointEntry.t) (weeklyPoints : Z) : Z :=
  match h with
  | [] => weeklyPoints
  | entry :: rest =>
      if str_ge (PointEntry.date entry) key
      then weeklyLoop key rest (weeklyPoints + PointEntry.points entry)
      else weeklyLoop key rest weeklyPoints
  end.

Definition getWeeklyPoints (now : Z) (item : Item) : Z :=
  match WishlistItem.pointHistory item with
  | None => 0
  | Some [] => 0
  | Some h => weeklyLoop (sevenDaysAgoKey now) h 0
  end.

Definition getTrendingStatus (now : Z) (item : Item) : Trend :=
  let weeklyPoints := getWeeklyPoints now item in
  if weeklyPoints >=? 10 then hot
  else if weeklyPoints >=? 5 then trending
  else none.

(** ** Budget manager *)

Definition checkAndResetDailyPoints (now : Z) (s : State) : State :=
  let today := getTodayKey now in
  if negb (String.eqb (lastResetDate s) today)
  then mkState (items s) MAX_DAILY_POINTS today (hidePurchased s) (sortMode s)
               (selectedItem s) (isSortingFrozen s) (frozenItems s) (timers s)
  else s.

Definition resetDailyPoints (now : Z) (s : State) : State :=
  mkState (items s) MAX_DAILY_POINTS (getTodayKey now) (hidePurchased s)
          (sortMode s) (selectedItem s) (isSortingFrozen s) (frozenItems s)
          (timers s).

(** ** Voting service *)

Definition isToday (today : string) (entry : PointEntry.t) : bool :=
  String.eqb (PointEntry.date entry) today.

Definition hasId (id : string) (it : Item) : bool :=
  String.eqb (WishlistItem.id it) id.

(** [const e = arr.find(p); if (e) e.points = f(e.points)]: the first element
    that satisfies [p] is written in place. The spread that builds
    [newPointHistory] copies the array, not the entries, so an older copy of
    the item that is still held (a row of [frozenItems]) sees the write
    through the shared entry. The embedding keeps values, not objects: it
    records the write in the history of the returned item, and the
    properties below read the histories of the live [items] only. *)
Fixpoint updateFirst (p : PointEntry.t -> bool) (f : Z -> Z)
    (h : list PointEntry.t) : list PointEntry.t :=
  match h with
  | [] => []
  | e :: rest =>
      if p e then PointEntry.mk (PointEntry.date e) (f (PointEntry.points e)) :: rest
      else e :: updateFirst p f rest
  end.

Definition orEmpty (h : option (list PointEntry.t)) : list PointEntry.t :=
  match h with Some l => l | None => [] end.

(** The history of an item after an upvote on day [today]. *)
Definition upvoteHistory (today : string) (h : option (list PointEntry.t))
    : list PointEntry.t :=
  let newPointHistory := orEmpty h in
  match find (isToday today) newPointHistory with
  | Some _ => updateFirst (isToday today) (fun p => p + 1) newPointHistory
  | None => newPointHistory ++ [PointEntry.mk today 1]
  end.

(** The history of an item after a downvote on day [today]. *)
Definition downvoteHistory (today : string) (h : option (list PointEntry.t))
    : list PointEntry.t :=
  let newPointHistory := orEmpty h in
  match find (isToday today) newPointHistory with
  | Some _ => updateFirst (isToday today) (fun p => Z.max 0 (p - 1)) newPointHistory
  | None => newPointHistory ++ [PointEntry.mk today (-1)]
  end.

Definition upvoted (today : string) (it : Item) : Item :=
  WishlistItem.with_points_history it (WishlistItem.points it + 1)
    (upvoteHistory today (WishlistItem.pointHistory it)).

Definition downvoted (today : string) (it : Item) : Item :=
  WishlistItem.with_points_history it (Z.max 0 (WishlistItem.points it - 1))
    (downvoteHistory today (WishlistItem.pointHistory it)).

(** [if (selectedItem?.id === id) { const u = next.find(...); if (u) setSelectedItem(u) }] *)
Definition refreshSelected (id : string) (next : list Item) (sel : option Item)
    : option Item :=
  match sel with
  | Some cur =>
      if hasId id cur then
        match find (hasId id) next with
        | Some updatedItem => Some updatedItem
        | None => sel
        end
      else sel
  | None => None
  end.

Definition freezeDelay : Z := 1000.

Definition addPoint (now : Z) (id : string) (s : State) : State * list Haptic :=
  let byPoints := SortMode_eqb (sortMode s) SortPoints in
  let frozen := if byPoints then true else isSortingFrozen s in
  let snapshot := if byPoints then items s else frozenItems s in
  let prev := items s in
  let '(next, sel, warn) :=
    if remainingPoints s <=? 0 then (prev, selectedItem s, [NotificationWarning])
    else
      let today := getTodayKey now in
      let next := map (fun it => if hasId id it then upvoted today it else it) prev in
      (next, refreshSelected id next (selectedItem s), []) in
  let newRemainingPoints :=
    if remainingPoints s >? 0 then remainingPoints s - 1 else remainingPoints s in
  let ok := if remainingPoints s >? 0 then [ImpactLight] else [] in
  let pending := if byPoints then (timers s ++ [now + freezeDelay])%list else timers s in
  (mkState next newRemainingPoints (lastResetDate s) (hidePurchased s)
           (sortMode s) sel frozen snapshot pending,
   (warn ++ ok)%list).

Definition removePoint (now : Z) (id : string) (s : State) : State * list Haptic :=
  let byPoints := SortMode_eqb (sortMode s) SortPoints in
  let frozen := if byPoints then true else isSortingFrozen s in
  let snapshot := if byPoints then items s else frozenItems s in
  let prev := items s in
  let refuse :=
    match find (hasId id) prev with
    | None => true
    | Some target => WishlistItem.points target <=? 0
    end in
  let '(next, sel, warn) :=
    if refuse then (prev, selectedItem s, [NotificationWarning])
    else
      let today := getTodayKey now in
      let next := map (fun it => if hasId id it then downvoted today it else it) prev in
      (next, refreshSelected id next (selectedItem s), []) in
  let p := remainingPoints s in
  let refunded := if p <? MAX_DAILY_POINTS then p + 1 else p in
  let pending := if byPoints then (timers s ++ [now + freezeDelay])%list else timers s in
  (mkState next refunded (lastResetDate s) (hidePurchased s)
           (sortMode s) sel frozen snapshot pending,
   (warn ++ [ImpactLight])%list).

(** The event loop reaching time [t]: a pending callback that is due runs
    [setIsSortingFrozen(false)] and leaves the list. *)
Definition elapse (t : Z) (s : State) : State :=
  let due := filter (fun d => d <=? t) (timers s) in
  let pending := filter (fun d => negb (d <=? t)) (timers s) in
  match due with
  | [] => s
  | _ :: _ =>
      mkState (items s) (remainingPoints s) (lastResetDate s) (hidePurchased s)
              (sortMode s) (selectedItem s) false (frozenItems s) pending
  end.

(** ** Item store *)

Definition hasOptionId (id : string) (o : ItemOption.t) : bool :=
  String.eqb (ItemOption.id o) id.

(** A string is truthy when it is not empty. *)
Definition truthy (x : string) : bool := negb (String.eqb x "").

Definition getCurrentDisplayItem (item : Item) : Item :=
  match WishlistItem.options item, WishlistItem.selectedOptionId item with
  | Some opts, Some sel =>
      if truthy sel then
        match find (hasOptionId sel) opts with
        | Some selectedOption => WishlistItem.with_display item selectedOption
        | None => item
        end
      else item
  | _, _ => item
  end.

(** [item.options?.length === 0]: false when the field is absent. *)
Definition optionsLengthIsZero (item : Item) : bool :=
  match WishlistItem.options item with
  | Some [] => true
  | _ => false
  end.

Definition orNoOptions (os : option (list ItemOption.t)) : list ItemOption.t :=
  match os with Some l => l | None => [] end.

Definition withOptionAdded (option : ItemOption.t) (item : Item) : Item :=
  let updatedOptions := (orNoOptions (WishlistItem.options item) ++ [option])%list in
  WishlistItem.with_options item updatedOptions
    (if optionsLengthIsZero item then Some (ItemOption.id option)
     else WishlistItem.selectedOptionId item).

Definition setItemsSel (s : State) (its : list Item) (sel : option Item) : State :=
  mkState its (remainingPoints s) (lastResetDate s) (hidePurchased s)
          (sortMode s) sel (isSortingFrozen s) (frozenItems s) (timers s).

(** The handlers below update [selectedItem] when it has the id they change. *)
Definition mapSelected (itemId : string) (f : Item -> Item) (sel : option Item)
    : option Item :=
  match sel with
  | Some cur => if hasId itemId cur then Some (f cur) else sel
  | None => None
  end.

Definition addOptionToItem (itemId : string) (option : ItemOption.t) (s : State)
    : State :=
  setItemsSel s
    (map (fun item => if negb (hasId itemId item) then item
                      else withOptionAdded option item) (items s))
    (mapSelected itemId (withOptionAdded option) (selectedItem s)).

Definition selectOptionAsMain (itemId optionId : string) (s : State) : State :=
  let pick (item : Item) :=
    WishlistItem.mk (WishlistItem.id item) (WishlistItem.name item)
      (WishlistItem.price item) (WishlistItem.link item)
      (WishlistItem.imageUrl item) (WishlistItem.points item)
      (WishlistItem.dateAdded item) (WishlistItem.isPurchased item)
      (WishlistItem.datePurchased item) (WishlistItem.options item)
      (Some optionId) (WishlistItem.pointHistory item) in
  setItemsSel s
    (map (fun item => if negb (hasId itemId item) then item else pick item) (items s))
    (mapSelected itemId pick (selectedItem s)).

Definition withOptionDeleted (optionId : string) (item : Item) : Item :=
  let updatedOptions :=
    filter (fun opt => negb (hasOptionId optionId opt))
           (orNoOptions (WishlistItem.options item)) in
  let isSelected :=
    match WishlistItem.selectedOptionId item with
    | Some sel => String.eqb sel optionId
    | None => false
    end in
  let newSelectedOptionId :=
    if isSelected then
      match updatedOptions with
      | first :: _ => Some (ItemOption.id first)
      | [] => None
      end
    else WishlistItem.selectedOptionId item in
  WishlistItem.with_options item updatedOptions newSelectedOptionId.

Definition deleteOption (itemId optionId : string) (s : State) : State :=
  setItemsSel s
    (map (fun item => if negb (hasId itemId item) then item
                      else withOptionDeleted optionId item) (items s))
    (mapSelected itemId (withOptionDeleted optionId) (selectedItem s)).

(** [String(n)] for an integer [n]. *)
Definition String_of (n : Z) : string :=
  DecimalString.NilZero.string_of_int (Z.to_int n).

(** The record [saveNewItem] builds: no [options], no [selectedOptionId], no
    [pointHistory], no [datePurchased]. *)
Definition newItem (now : Z) (name : string) (price : Z)
    (link imageUrl : option string) : Item :=
  WishlistItem.mk (String_of now) name price link imageUrl 0 now false
                  None None None None.

(** [saveNewItem] once the form is read: [name] is the trimmed name, [price]
    the parsed price (0 for a blank box), [imageUrl] the given or scraped
    image. An empty name or a negative price is refused. *)
Definition saveNewItem (now : Z) (name : string) (price : Z)
    (link imageUrl : option string) (s : State) : State :=
  if String.eqb name "" then s
  else if price <? 0 then s
  else setItemsSel s (newItem now name price link imageUrl :: items s)
                   (selectedItem s).

Definition togglePurchased (now : Z) (id : string) (s : State) : State :=
  setItemsSel s
    (map (fun it =>
            if negb (hasId id it) then it
            else let nextPurchased := negb (WishlistItem.isPurchased it) in
                 WishlistItem.with_purchased it nextPurchased
                   (if nextPurchased then Some now else None)) (items s))
    (selectedItem s).

Definition deleteItem (id : string) (s : State) : State :=
  setItemsSel s (filter (fun it => negb (hasId id it)) (items s)) (selectedItem s).

(** ** Ranking view *)

(** [Array.prototype.sort(compareFn)] is a stable sort; with a comparator
    that orders the elements its result is the one of any stable sort.
    [x] is placed before the first [y] with [compareFn x y <= 0]. *)
Fixpoint sortInsert (compareFn : Item -> Item -> Z) (x : Item) (l : list Item)
    : list Item :=
  match l with
  | [] => [x]
  | y :: rest =>
      if compareFn x y <=? 0 then x :: y :: rest
      else y :: sortInsert compareFn x rest
  end.

Definition sort (compareFn : Item -> Item -> Z) (arr : list Item) : list Item :=
  fold_right (sortInsert compareFn) [] arr.

Definition byPoints (a b : Item) : Z := WishlistItem.points b - WishlistItem.points a.
Definition byDate (a b : Item) : Z := WishlistItem.dateAdded b - WishlistItem.dateAdded a.
Definition byPrice (a b : Item) : Z := WishlistItem.price b - WishlistItem.price a.

Definition sortedItems (s : State) : list Item :=
  let sourceItems := if isSortingFrozen s then frozenItems s else items s in
  let filtered :=
    if hidePurchased s
    then filter (fun i => negb (WishlistItem.isPurchased i)) sourceItems
    else sourceItems in
  let arr := filtered in
  let arr := if SortMode_eqb (sortMode s) SortPoints then sort byPoints arr else arr in
  let arr := if SortMode_eqb (sortMode s) SortDate then sort byDate arr else arr in
  let arr := if SortMode_eqb (sortMode s) SortPrice then sort byPrice arr else arr in
  arr.

(** What [renderItem] shows for the rows of the list. *)
Definition displayedItems (s : State) : list Item :=
  map getCurrentDisplayItem (sortedItems s).

(** ** Sequences of votes *)

Inductive Vote : Type :=
| Upvote (id : string)
| Downvote (id : string).

Definition castVote (now : Z) (v : Vote) (s : State) : State * list Haptic :=
  match v with
  | Upvote id => addPoint now id s
  | Downvote id => removePoint now id s
  end.

(** The states after each call of a sequence of votes; every call comes with
    the reading of the clock at which it is made. *)
Fixpoint statesAfter (calls : list (Z * Vote)) (s : State) : list State :=
  match calls with
  | [] => []
  | (now, v) :: rest =>
      let s' := fst (castVote now v s) in s' :: statesAfter rest s'
  end.

Definition budgetInRange (s : State) : Prop :=
  0 <= remainingPoints s <= MAX_DAILY_POINTS.

Definition pointsNonNegative (s : State) : Prop :=
  Forall (fun it => 0 <= WishlistItem.points it) (items s).

Definition present (id : string) (s : State) : Prop :=
  In id (map WishlistItem.id (items s)).

(** The delta recorded for a day: the one of the first entry with that key. *)
Definition deltaOn (day : string) (h : list PointEntry.t) : option Z :=
  option_map PointEntry.points (find (isToday day) h).

(** ** Histories given by day numbers *)

(** A history written as (day number, delta) pairs, and the array of entries
    it stands for. *)
Definition historyOfDays (h : list (Z * Z)) : list PointEntry.t :=
  map (fun e => PointEntry.mk (IsoDate.keyOfDay (fst e)) (snd e)) h.

(** The sum of the deltas of the days that satisfy [p], taken as they are. *)
Fixpoint sumWhere (p : Z -> bool) (h : list (Z * Z)) : Z :=
  match h with
  | [] => 0
  | e :: rest => (if p (fst e) then snd e else 0) + sumWhere p rest
  end.

(** The window in the words of the specification: the seven days that end
    at [D], the day seven days before [D] being outside. *)
Definition specWindow (D d : Z) : bool := (D - 6 <=? d) && (d <=? D).

Definition specWeeklyPoints (D : Z) (h : list (Z * Z)) : Z :=
  sumWhere (specWindow D) h.

(** The window of [getWeeklyPoints]: every day from [D - 7] on. *)
Definition codeWindow (D d : Z) : bool := D - 7 <=? d.

(** ** The price a row shows *)

Definition displayedPrice (it : Item) : Z :=
  WishlistItem.price (getCurrentDisplayItem it).

(** The comparator of a descending sort on [key]: [(a, b) => key(b) - key(a)]. *)
Definition compareDescending (key : Item -> Z) (a b : Item) : Z :=
  key b - key a.

Definition descendingBy (key : Item -> Z) (l : list Item) : Prop :=
  StronglySorted (fun a b => key b <= key a) l.

(** What [sortedItems] sorts: the frozen snapshot or the live items, without
    the purchased ones when they are hidden. *)
Definition rankedSource (s : State) : list Item :=
  let sourceItems := if isSortingFrozen s then frozenItems s else items s in
  if hidePurchased s
  then filter (fun i => negb (WishlistItem.isPurchased i)) sourceItems
  else sourceItems.

(** ** Concrete inputs *)

Module Scenario.

(** 2024-03-10T12:00:00Z, on day 19792. *)
Definition noon : Z := 1710072000000.

Definition plain (id : string) (price points : Z)
    (history : option (list PointEntry.t)) : Item :=
  WishlistItem.mk id id price None None points 0 false None None None history.

Definition itemY : Item := plain "Y" 12 0 None.

Definition itemX : Item :=
  plain "X" 30 3 (Some [PointEntry.mk "2024-03-10" 0]).

Definition stateOf (its : list Item) (budget : Z) (mode : SortMode) : State :=
  mkState its budget "2024-03-10" false mode None false [] [].

Definition bikeOption : ItemOption.t :=
  ItemOption.mk "o1" "Road bike" 100 None None.

(** An item whose selected option costs more than the item says. *)
Definition itemA : Item :=
  WishlistItem.mk "A" "Bike" 10 None None 0 0 false None
                  (Some [bikeOption]) (Some "o1") None.

Definition itemB : Item := plain "B" 50 0 None.

End Scenario.

(** ** Editing an item *)

(** [price || 0], for the price of the edit form: absent when the box is
    blank. *)
Definition priceOrZero (price : option Z) : Z :=
  match price with Some p => p | None => 0 end.

(** [{ ...item, name, price: price || 0 }] *)
Definition edited (name : string) (price : option Z) (item : Item) : Item :=
  WishlistItem.mk (WishlistItem.id item) name (priceOrZero price)
    (WishlistItem.link item) (WishlistItem.imageUrl item)
    (WishlistItem.points item) (WishlistItem.dateAdded item)
    (WishlistItem.isPurchased item) (WishlistItem.datePurchased item)
    (WishlistItem.options item) (WishlistItem.selectedOptionId item)
    (WishlistItem.pointHistory item).

(** [saveItemEdit] once the form is read: [name] is the trimmed name, [price]
    the parsed price, absent for a blank box. Without a selected item, with
    an empty name or with a negative price nothing is written. *)
Definition saveItemEdit (name : string) (price : option Z) (s : State) : State :=
  match selectedItem s with
  | None => s
  | Some sel =>
      if String.eqb name "" then s
      else if match price with Some p => p <? 0 | None => false end then s
      else
        setItemsSel s
          (map (fun item => if hasId (WishlistItem.id sel) item
                            then edited name price item else item) (items s))
          (Some (edited name price sel))
  end.

(** ** Storage *)

(** What [JSON.parse] gives back for the stored text; a field the text does
    not have is absent. *)
Module PersistedState.
Record t : Type := mk {
  items : option (list Item);
  remainingPoints : option Z;
  lastResetDate : option string
}.
End PersistedState.

Definition seedItems : list Item := [].

(** The [load] effect. [raw] is the parsed stored value; it is absent when
    nothing is stored and when reading or parsing fails, which the handler
    treats alike. *)
Definition load (now : Z) (raw : option PersistedState.t) (s : State) : State :=
  match raw with
  | Some parsed =>
      let today := getTodayKey now in
      let its := match PersistedState.items parsed with
                 | Some l => l
                 | None => []
                 end in
      let sameDay := match PersistedState.lastResetDate parsed with
                     | Some d => String.eqb d today
                     | None => false
                     end in
      let budget :=
        if sameDay then
          match PersistedState.remainingPoints parsed with
          | Some p => p
          | None => MAX_DAILY_POINTS
          end
        else MAX_DAILY_POINTS in
      mkState its budget today (hidePurchased s) (sortMode s) (selectedItem s)
              (isSortingFrozen s) (frozenItems s) (timers s)
  | None =>
      mkState seedItems MAX_DAILY_POINTS (getTodayKey now) (hidePurchased s)
              (sortMode s) (selectedItem s) (isSortingFrozen s) (frozenItems s)
              (timers s)
  end.

(** The value the [persist] effect stores; [JSON.stringify] followed by
    [JSON.parse] gives it back, an absent field staying absent. *)
Definition persist (s : State) : PersistedState.t :=
  PersistedState.mk (Some (items s)) (Some (remainingPoints s))
                    (Some (lastResetDate s)).

(** ** Notions the properties are stated with *)

(** The state after a sequence of votes. *)
Definition finalState (calls : list (Z * Vote)) (s : State) : State :=
  fold_left (fun st c => fst (castVote (fst c) (snd c) st)) calls s.

(** An item without what a vote writes. *)
Definition nonVoteFields (it : Item) : Item :=
  WishlistItem.mk (WishlistItem.id it) (WishlistItem.name it)
    (WishlistItem.price it) (WishlistItem.link it) (WishlistItem.imageUrl it)
    0 (WishlistItem.dateAdded it) (WishlistItem.isPurchased it)
    (WishlistItem.datePurchased it) (WishlistItem.options it)
    (WishlistItem.selectedOptionId it) None.

Definition otherThan (id : string) (l : list Item) : list Item :=
  filter (fun it => negb (hasId id it)) l.

Fixpoint totalPoints (l : list Item) : Z :=
  match l with
  | [] => 0
  | it :: rest => WishlistItem.points it + totalPoints rest
  end.

Definition uniqueIds (s : State) : Prop :=
  NoDup (map WishlistItem.id (items s)).

(** [datePurchased] is there exactly when the item is purchased. *)
Definition purchaseConsistent (it : Item) : Prop :=
  WishlistItem.isPurchased it = true <-> WishlistItem.datePurchased it <> None.

(** The selected option, when there is one, is an option of the item. *)
Definition selectionValid (it : Item) : Prop :=
  match WishlistItem.selectedOptionId it with
  | None => True
  | Some sel =>
      exists o, In o (orNoOptions (WishlistItem.options it))
                /\ ItemOption.id o = sel
  end.

(** The key a sort mode orders by. *)
Definition keyOfMode (m : SortMode) : Item -> Z :=
  match m with
  | SortPoints => WishlistItem.points
  | SortDate => WishlistItem.dateAdded
  | SortPrice => WishlistItem.price
  end.

Definition sameKey (key : Item -> Z) (k : Z) (l : list Item) : list Item :=
  filter (fun it => key it =? k) l.

Definition voteId (v : Vote) : string :=
  match v with Upvote id | Downvote id => id end.

(** The item [togglePurchased] puts in the place of an item of its id. *)
Definition toggled (now : Z) (it : Item) : Item :=
  WishlistItem.with_purchased it (negb (WishlistItem.isPurchased it))
    (if negb (WishlistItem.isPurchased it) then Some now else None).

(** What a row of the list tells of an item's rank: its id and points. *)
Definition rowOf (it : Item) : string * Z :=
  (WishlistItem.id it, WishlistItem.points it).

(** ** The handlers as actions *)

(** One call of a handler of the engine, with its arguments; the clock
    reading comes with the handlers that read the clock. *)
Inductive Action : Type :=
| Cast (now : Z) (v : Vote)
| Elapse (t : Z)
| CheckAndReset (now : Z)
| ResetDaily (now : Z)
| TogglePurchased (now : Z) (id : string)
| Delete (id : string)
| AddOption (itemId : string) (option : ItemOption.t)
| SelectOption (itemId optionId : string)
| DeleteOption (itemId optionId : string)
| SaveNew (now : Z) (name : string) (price : Z) (link imageUrl : option string)
| SaveEdit (name : string) (price : option Z).

Definition perform (a : Action) (s : State) : State :=
  match a with
  | Cast now v => fst (castVote now v s)
  | Elapse t => elapse t s
  | CheckAndReset now => checkAndResetDailyPoints now s
  | ResetDaily now => resetDailyPoints now s
  | TogglePurchased now id => togglePurchased now id s
  | Delete id => deleteItem id s
  | AddOption itemId option => addOptionToItem itemId option s
  | SelectOption itemId optionId => selectOptionAsMain itemId optionId s
  | DeleteOption itemId optionId => deleteOption itemId optionId s
  | SaveNew now name price link imageUrl =>
      saveNewItem now name price link imageUrl s
  | SaveEdit name price => saveItemEdit name price s
  end.

Fixpoint performAll (actions : list Action) (s : State) : list State :=
  match actions with
  | [] => []
  | a :: rest => let s' := perform a s in s' :: performAll rest s'
  end.

(** The budget is in range, no item has negative points, and every item has
    a purchase date exactly when it is purchased. *)
Definition engineInvariant (s : State) : Prop :=
  budgetInRange s
  /\ Forall (fun it => 0 <= WishlistItem.points it /\ purchaseConsistent it)
            (items s).

(** * Properties *)

(** ** Day keys are ordered like the days they name *)

Module IsoDateFacts.
Import IsoDate.

Ltac divlia := Z.div_mod_to_equations; lia.

Ltac split_tests :=
  repeat match goal with
  | |- context [Z.ltb ?x ?y] => destruct (Z.ltb_spec x y)
  | |- context [Z.leb ?x ?y] => destruct (Z.leb_spec x y)
  end.

Lemma civil_civilOf (day : Z) :
  civil day =
  civilOf ((day + 719468) / 146097)
          (day + 719468 - (day + 719468) / 146097 * 146097).
Proof. reflexivity. Qed.

Lemma yoe_spec (doe : Z) :
  0 <= doe < 146097 ->
  0 <= yoeOf doe < 400 /\ 0 <= doe - yearStart (yoeOf doe) <= 365.
Proof. intros. unfold yoeOf, yearStart in *. divlia. Qed.

Lemma yoe_step (doe : Z) :
  0 <= doe < 146096 ->
  yoeOf (doe + 1) = yoeOf doe \/
  (yoeOf (doe + 1) = yoeOf doe + 1 /\ doe + 1 = yearStart (yoeOf doe + 1)
   /\ 364 <= doe - yearStart (yoeOf doe)).
Proof. intros. unfold yoeOf, yearStart in *. divlia. Qed.

Lemma dom_spec (doy : Z) :
  0 <= doy <= 365 -> 0 <= mpOf doy <= 11 /\ 1 <= domOf doy <= 31.
Proof. intros. unfold domOf, mpOf in *. divlia. Qed.

Lemma dom_step (doy : Z) :
  0 <= doy < 365 ->
  (mpOf (doy + 1) = mpOf doy /\ domOf (doy + 1) = domOf doy + 1) \/
  (mpOf (doy + 1) = mpOf doy + 1 /\ domOf (doy + 1) = 1).
Proof. intros. unfold domOf, mpOf in *. divlia. Qed.

Lemma mp_last (doy : Z) : 364 <= doy <= 365 -> mpOf doy = 11.
Proof. intros. unfold mpOf. divlia. Qed.

(** Within an era the number of a day grows with the day. *)
Lemma civilOf_step (era doe : Z) :
  0 <= doe < 146096 ->
  numOfCivil (civilOf era doe) < numOfCivil (civilOf era (doe + 1)).
Proof.
  intros H. unfold numOfCivil, civilOf. cbv zeta.
  destruct (yoe_spec doe ltac:(lia)) as [Y1 D1].
  destruct (yoe_spec (doe + 1) ltac:(lia)) as [Y2 D2].
  destruct (yoe_step doe H) as [E | (E & E' & L)].
  - rewrite E in *.
    replace (doe + 1 - yearStart (yoeOf doe))
      with (doe - yearStart (yoeOf doe) + 1) in * by ring.
    set (doy := doe - yearStart (yoeOf doe)) in *.
    pose proof (dom_spec doy ltac:(lia)) as B1.
    pose proof (dom_spec (doy + 1) ltac:(lia)) as B2.
    destruct (dom_step doy ltac:(lia)) as [[M D] | [M D]];
      rewrite M, D in *; unfold monthOf; split_tests; lia.
  - rewrite E, <- E'.
    replace (doe + 1 - (doe + 1)) with 0 by ring.
    set (doy := doe - yearStart (yoeOf doe)) in *.
    rewrite (mp_last doy ltac:(lia)).
    pose proof (dom_spec doy ltac:(lia)) as B1.
    change (mpOf 0) with 0. change (domOf 0) with 1.
    change (monthOf 11) with 2. change (monthOf 0) with 3.
    change (2 <=? 2) with true. change (3 <=? 2) with false. lia.
Qed.

(** The last day of an era, a 29th of February, and the 1st of March that
    follows it. *)
Lemma civilOf_era (era : Z) :
  numOfCivil (civilOf era 146096) < numOfCivil (civilOf (era + 1) 0).
Proof.
  unfold numOfCivil, civilOf. cbv zeta.
  change (yoeOf 146096) with 399. change (yoeOf 0) with 0.
  change (146096 - yearStart 399) with 365. change (0 - yearStart 0) with 0.
  change (mpOf 365) with 11. change (mpOf 0) with 0.
  change (monthOf 11) with 2. change (monthOf 0) with 3.
  change (domOf 365) with 29. change (domOf 0) with 1.
  change (2 <=? 2) with true. change (3 <=? 2) with false. lia.
Qed.

Lemma dateNum_succ (day : Z) : dateNum day < dateNum (day + 1).
Proof.
  unfold dateNum. rewrite !civil_civilOf.
  replace (day + 1 + 719468) with (day + 719468 + 1) by ring.
  set (z := day + 719468).
  assert (R : 0 <= z - z / 146097 * 146097 < 146097) by divlia.
  destruct (Z.eq_dec (z - z / 146097 * 146097) 146096) as [E|N].
  - assert (Q : (z + 1) / 146097 = z / 146097 + 1) by divlia.
    rewrite Q, E.
    replace (z + 1 - (z / 146097 + 1) * 146097) with 0 by lia.
    apply civilOf_era.
  - assert (Q : (z + 1) / 146097 = z / 146097) by divlia.
    rewrite Q.
    replace (z + 1 - z / 146097 * 146097)
      with (z - z / 146097 * 146097 + 1) by ring.
    apply civilOf_step. lia.
Qed.

Lemma civil_bounds (day : Z) :
  let '(_, m, d) := civil day in 1 <= m <= 12 /\ 1 <= d <= 31.
Proof.
  rewrite civil_civilOf. set (z := day + 719468).
  assert (R : 0 <= z - z / 146097 * 146097 < 146097) by divlia.
  unfold civilOf. cbv zeta.
  destruct (yoe_spec _ R) as [_ D].
  pose proof (dom_spec _ D) as B.
  unfold monthOf. split_tests; lia.
Qed.

Lemma dateNum_lt (a b : Z) : a < b -> dateNum a < dateNum b.
Proof.
  intros Hab.
  replace b with (a + 1 + Z.of_nat (Z.to_nat (b - a - 1))) by lia.
  induction (Z.to_nat (b - a - 1)) as [|n IH].
  - rewrite Z.add_0_r. apply dateNum_succ.
  - rewrite Nat2Z.inj_succ.
    replace (a + 1 + Z.succ (Z.of_nat n)) with (a + 1 + Z.of_nat n + 1) by lia.
    pose proof (dateNum_succ (a + 1 + Z.of_nat n)). lia.
Qed.

Lemma dateNum_compare (a b : Z) : (dateNum a ?= dateNum b) = (a ?= b).
Proof.
  destruct (Z.compare_spec a b) as [->|H|H].
  - apply Z.compare_refl.
  - apply Z.compare_lt_iff. now apply dateNum_lt.
  - apply Z.compare_gt_iff. now apply dateNum_lt.
Qed.

Lemma civil_year_range (day : Z) :
  inRange day -> let '(y, _, _) := civil day in 0 <= y <= 9999.
Proof.
  intros [Hlo Hhi].
  assert (L : dateNum firstDay <= dateNum day).
  { destruct (Z.eq_dec firstDay day) as [->|]; [lia|].
    apply Z.lt_le_incl, dateNum_lt. lia. }
  assert (U : dateNum day <= dateNum lastDay).
  { destruct (Z.eq_dec day lastDay) as [->|]; [lia|].
    apply Z.lt_le_incl, dateNum_lt. lia. }
  change (dateNum firstDay) with 101 in L.
  change (dateNum lastDay) with 99991231 in U.
  pose proof (civil_bounds day) as B. unfold dateNum, numOfCivil in L, U.
  destruct (civil day) as [[y m] d]. lia.
Qed.


(** The keys of some known instants, leap days and ends of years among
    them. *)
Example key_of_epoch : getTodayKey 0 = "1970-01-01".
Proof. reflexivity. Qed.

Example key_of_leap_day : getTodayKey 1709251199000 = "2024-02-29".
Proof. reflexivity. Qed.

Example key_of_century_leap_day : getTodayKey 951782400000 = "2000-02-29".
Proof. reflexivity. Qed.

Example key_after_skipped_leap_day : getTodayKey 4107542400000 = "2100-03-01".
Proof. reflexivity. Qed.

Example key_of_last_second_of_year : getTodayKey 946684799000 = "1999-12-31".
Proof. reflexivity. Qed.

Example key_before_epoch : getTodayKey (-2203891200000) = "1900-03-01".
Proof. reflexivity. Qed.

Example key_of_first_day : keyOfDay firstDay = "0000-01-01".
Proof. reflexivity. Qed.

Example key_of_last_day : keyOfDay lastDay = "9999-12-31".
Proof. reflexivity. Qed.

(** *** From numbers to the strings that print them *)

Lemma compare_app (s1 s2 t1 t2 : string) :
  String.length s1 = String.length s2 ->
  String.compare (s1 ++ t1) (s2 ++ t2) =
  match String.compare s1 s2 with
  | Eq => String.compare t1 t2
  | c => c
  end.
Proof.
  revert s2. induction s1 as [|c1 s1 IH]; intros [|c2 s2] L;
    try discriminate L; [reflexivity|].
  simpl in *. destruct (Ascii.compare c1 c2); auto.
Qed.

Lemma compare_cons (c : ascii) (s t : string) :
  String.compare (String c s) (String c t) = String.compare s t.
Proof.
  cbn [String.compare].
  replace (Ascii.compare c c) with Eq; [reflexivity|].
  unfold Ascii.compare. symmetry. apply N.compare_refl.
Qed.

Lemma length_app (s t : string) :
  String.length (s ++ t) = (String.length s + String.length t)%nat.
Proof. induction s as [|c s IH]; simpl; auto. Qed.

Lemma pad_length (w : nat) (n : Z) : String.length (pad w n) = w.
Proof.
  revert n. induction w as [|w IH]; intros n; [reflexivity|].
  cbn [pad]. rewrite length_app, IH. simpl. lia.
Qed.

Lemma digit_compare (a b : Z) :
  Ascii.compare (digit a) (digit b) = (a mod 10 ?= b mod 10).
Proof.
  unfold Ascii.compare, digit.
  pose proof (Z.mod_pos_bound a 10 ltac:(lia)) as Ha.
  pose proof (Z.mod_pos_bound b 10 ltac:(lia)) as Hb.
  rewrite !N_ascii_embedding by lia.
  rewrite <- N2Z.inj_compare, !N2Z.inj_add, !Z2N.id by lia.
  change (Z.of_N 48) with 48.
  destruct (Z.compare_spec (a mod 10) (b mod 10));
    [apply Z.compare_eq_iff | apply Z.compare_lt_iff | apply Z.compare_gt_iff];
    lia.
Qed.

Lemma compare_digits (a b : Z) :
  (a ?= b) =
  match a / 10 ?= b / 10 with
  | Eq => a mod 10 ?= b mod 10
  | c => c
  end.
Proof.
  destruct (Z.compare_spec (a / 10) (b / 10));
    [ destruct (Z.compare_spec (a mod 10) (b mod 10));
      [apply Z.compare_eq_iff | apply Z.compare_lt_iff | apply Z.compare_gt_iff]
    | apply Z.compare_lt_iff | apply Z.compare_gt_iff ];
    divlia.
Qed.

Lemma low_digit (r k : Z) :
  0 <= r < 10 -> (r + 10 * k) / 10 = k /\ (r + 10 * k) mod 10 = r.
Proof. intros. divlia. Qed.

Lemma pad_compare (w : nat) :
  forall a b, String.compare (pad w a) (pad w b) =
              (a mod 10 ^ Z.of_nat w ?= b mod 10 ^ Z.of_nat w).
Proof.
  induction w as [|w IH]; intros a b.
  - simpl. now rewrite !Z.mod_1_r.
  - cbn [pad]. rewrite compare_app by now rewrite !pad_length.
    rewrite IH. cbn [String.compare]. rewrite digit_compare.
    rewrite Nat2Z.inj_succ, Z.pow_succ_r by lia.
    set (p := 10 ^ Z.of_nat w).
    assert (P : 0 < p) by (apply Z.pow_pos_nonneg; lia).
    rewrite (compare_digits (a mod (10 * p)) (b mod (10 * p))).
    rewrite !Z.rem_mul_r by lia.
    pose proof (Z.mod_pos_bound a 10 ltac:(lia)) as Ha.
    pose proof (Z.mod_pos_bound b 10 ltac:(lia)) as Hb.
    destruct (low_digit _ ((a / 10) mod p) Ha) as [-> ->].
    destruct (low_digit _ ((b / 10) mod p) Hb) as [-> ->].
    destruct ((a / 10) mod p ?= (b / 10) mod p);
      destruct (a mod 10 ?= b mod 10); reflexivity.
Qed.

Lemma substring_all (s : string) : substring 0 (String.length s) s = s.
Proof. induction s as [|c s IH]; simpl; [reflexivity | now rewrite IH]. Qed.

(** In the four-digit years the key is the whole date part. *)
Lemma keyOfDay_shape (day : Z) :
  inRange day ->
  keyOfDay day =
  let '(y, m, d) := civil day in pad 4 y ++ "-" ++ pad 2 m ++ "-" ++ pad 2 d.
Proof.
  intros R. unfold keyOfDay, isoDatePart.
  pose proof (civil_year_range day R) as Y.
  destruct (civil day) as [[y m] d].
  unfold yearString.
  replace ((0 <=? y) && (y <=? 9999)) with true
    by (symmetry; apply andb_true_iff; rewrite !Z.leb_le; lia).
  apply (substring_all (pad 4 y ++ "-" ++ pad 2 m ++ "-" ++ pad 2 d)).
Qed.

Lemma keyOfDay_compare (a b : Z) :
  inRange a -> inRange b ->
  String.compare (keyOfDay a) (keyOfDay b) = (a ?= b).
Proof.
  intros Ra Rb. rewrite <- dateNum_compare.
  rewrite (keyOfDay_shape a Ra), (keyOfDay_shape b Rb).
  pose proof (civil_year_range a Ra) as Ya.
  pose proof (civil_year_range b Rb) as Yb.
  pose proof (civil_bounds a) as Ba. pose proof (civil_bounds b) as Bb.
  unfold dateNum, numOfCivil.
  destruct (civil a) as [[y1 m1] d1]. destruct (civil b) as [[y2 m2] d2].
  rewrite compare_app by now rewrite !pad_length.
  cbn [append]. rewrite compare_cons.
  rewrite compare_app by now rewrite !pad_length.
  cbn [append]. rewrite compare_cons.
  rewrite !pad_compare.
  change (10 ^ Z.of_nat 4) with 10000. change (10 ^ Z.of_nat 2) with 100.
  rewrite !Z.mod_small by lia.
  destruct (Z.compare_spec y1 y2);
    [ destruct (Z.compare_spec m1 m2);
      [ destruct (Z.compare_spec d1 d2) | | ] | | ];
    cbv iota; symmetry;
    first [apply Z.compare_eq_iff | apply Z.compare_lt_iff | apply Z.compare_gt_iff];
    lia.
Qed.

(** The comparison of [getWeeklyPoints], on the keys of two days. *)
Lemma str_ge_keyOfDay (a b : Z) :
  inRange a -> inRange b ->
  str_ge (keyOfDay a) (keyOfDay b) = (b <=? a).
Proof.
  intros Ra Rb. unfold str_ge, String.leb, Z.leb.
  now rewrite (keyOfDay_compare b a Rb Ra).
Qed.

Lemma dayOf_week_ago (now : Z) :
  dayOf (now - 7 * 24 * 60 * 60 * 1000) = dayOf now - 7.
Proof. unfold dayOf, msPerDay. divlia. Qed.

End IsoDateFacts.

(** ** What a vote writes *)

Section VoteFields.
Variables (now : Z) (id : string) (s : State).

Lemma addPoint_remainingPoints :
  remainingPoints (fst (addPoint now id s)) =
  if remainingPoints s >? 0 then remainingPoints s - 1 else remainingPoints s.
Proof. unfold addPoint. destruct (remainingPoints s <=? 0); reflexivity. Qed.

Lemma addPoint_items :
  items (fst (addPoint now id s)) =
  if remainingPoints s <=? 0 then items s
  else map (fun it => if hasId id it then upvoted (getTodayKey now) it else it)
           (items s).
Proof. unfold addPoint. destruct (remainingPoints s <=? 0); reflexivity. Qed.

Lemma removePoint_remainingPoints :
  remainingPoints (fst (removePoint now id s)) =
  if remainingPoints s <? MAX_DAILY_POINTS then remainingPoints s + 1
  else remainingPoints s.
Proof.
  unfold removePoint.
  destruct (find (hasId id) (items s)) as [target|];
    [destruct (WishlistItem.points target <=? 0)|]; reflexivity.
Qed.

Lemma removePoint_items :
  items (fst (removePoint now id s)) =
  match find (hasId id) (items s) with
  | None => items s
  | Some target =>
      if WishlistItem.points target <=? 0 then items s
      else map (fun it => if hasId id it then downvoted (getTodayKey now) it
                          else it) (items s)
  end.
Proof.
  unfold removePoint.
  destruct (find (hasId id) (items s)) as [target|];
    [destruct (WishlistItem.points target <=? 0)|]; reflexivity.
Qed.

Lemma addPoint_timers :
  timers (fst (addPoint now id s)) =
  if SortMode_eqb (sortMode s) SortPoints
  then (timers s ++ [now + freezeDelay])%list else timers s.
Proof. unfold addPoint. destruct (remainingPoints s <=? 0); reflexivity. Qed.

Lemma removePoint_timers :
  timers (fst (removePoint now id s)) =
  if SortMode_eqb (sortMode s) SortPoints
  then (timers s ++ [now + freezeDelay])%list else timers s.
Proof.
  unfold removePoint.
  destruct (find (hasId id) (items s)) as [target|];
    [destruct (WishlistItem.points target <=? 0)|]; reflexivity.
Qed.

Lemma addPoint_frozen :
  isSortingFrozen (fst (addPoint now id s)) =
  (if SortMode_eqb (sortMode s) SortPoints then true else isSortingFrozen s)
  /\ frozenItems (fst (addPoint now id s)) =
     (if SortMode_eqb (sortMode s) SortPoints then items s else frozenItems s)
  /\ sortMode (fst (addPoint now id s)) = sortMode s.
Proof. unfold addPoint. destruct (remainingPoints s <=? 0); auto. Qed.

Lemma removePoint_frozen :
  isSortingFrozen (fst (removePoint now id s)) =
  (if SortMode_eqb (sortMode s) SortPoints then true else isSortingFrozen s)
  /\ frozenItems (fst (removePoint now id s)) =
     (if SortMode_eqb (sortMode s) SortPoints then items s else frozenItems s)
  /\ sortMode (fst (removePoint now id s)) = sortMode s.
Proof.
  unfold removePoint.
  destruct (find (hasId id) (items s)) as [target|];
    [destruct (WishlistItem.points target <=? 0)|]; auto.
Qed.

End VoteFields.

Lemma hasId_true (id : string) (it : Item) :
  hasId id it = true <-> WishlistItem.id it = id.
Proof. apply String.eqb_eq. Qed.

Lemma absent_find (id : string) (l : list Item) :
  ~ In id (map WishlistItem.id l) -> find (hasId id) l = None.
Proof.
  induction l as [|it l IH]; intros A; [reflexivity|].
  simpl in *. destruct (hasId id it) eqn:E.
  - apply hasId_true in E. tauto.
  - apply IH. tauto.
Qed.

Lemma absent_map (id : string) (f : Item -> Item) (l : list Item) :
  ~ In id (map WishlistItem.id l) ->
  map (fun it => if hasId id it then f it else it) l = l.
Proof.
  induction l as [|it l IH]; intros A; [reflexivity|].
  simpl in *. destruct (hasId id it) eqn:E.
  - apply hasId_true in E. tauto.
  - f_equal. apply IH. tauto.
Qed.

(** ** The budget and the points stay in range *)

Lemma upvoted_points (today : string) (it : Item) :
  WishlistItem.points (upvoted today it) = WishlistItem.points it + 1.
Proof. reflexivity. Qed.

Lemma downvoted_points (today : string) (it : Item) :
  WishlistItem.points (downvoted today it) =
  Z.max 0 (WishlistItem.points it - 1).
Proof. reflexivity. Qed.

Lemma castVote_budget (now : Z) (v : Vote) (s : State) :
  budgetInRange s -> budgetInRange (fst (castVote now v s)).
Proof.
  unfold budgetInRange, MAX_DAILY_POINTS. intros B. destruct v as [id|id]; simpl.
  - rewrite addPoint_remainingPoints.
    destruct (Z.gtb_spec (remainingPoints s) 0); lia.
  - rewrite removePoint_remainingPoints. unfold MAX_DAILY_POINTS.
    destruct (Z.ltb_spec (remainingPoints s) 15); lia.
Qed.

Lemma castVote_points (now : Z) (v : Vote) (s : State) :
  pointsNonNegative s -> pointsNonNegative (fst (castVote now v s)).
Proof.
  unfold pointsNonNegative. intros P. destruct v as [id|id]; simpl.
  - rewrite addPoint_items. destruct (remainingPoints s <=? 0); [assumption|].
    apply Forall_map. eapply Forall_impl; [|exact P].
    intros it H. cbv beta in *. destruct (hasId id it); [rewrite upvoted_points|]; lia.
  - rewrite removePoint_items.
    destruct (find (hasId id) (items s)) as [target|]; [|assumption].
    destruct (WishlistItem.points target <=? 0); [assumption|].
    apply Forall_map. eapply Forall_impl; [|exact P].
    intros it H. cbv beta in *. destruct (hasId id it); [rewrite downvoted_points|]; lia.
Qed.

(** C1. From a state whose [remainingPoints] lies in [0, MAX_DAILY_POINTS]
    and whose items all have non-negative [points], every state reached by
    a finite sequence of [addPoint] and [removePoint] calls, with any item
    ids and at any clock readings, again has [remainingPoints] in
    [0, MAX_DAILY_POINTS] and only non-negative [points]. *)
Theorem votes_keep_budget_and_points (calls : list (Z * Vote)) (s : State) :
  budgetInRange s -> pointsNonNegative s ->
  Forall (fun s' => budgetInRange s' /\ pointsNonNegative s')
         (statesAfter calls s).
Proof.
  revert s. induction calls as [|[now v] rest IH]; intros s B P; simpl.
  - constructor.
  - pose proof (castVote_budget now v s B) as B'.
    pose proof (castVote_points now v s P) as P'.
    constructor; [split; assumption | apply IH; assumption].
Qed.

Lemma votes_keep_budget_and_points_witness :
  let s := Scenario.stateOf [Scenario.itemX; Scenario.itemY] 1 SortPoints in
  let calls := [(Scenario.noon, Upvote "X"); (Scenario.noon + 1, Upvote "Y");
                (Scenario.noon + 2, Downvote "Y"); (Scenario.noon + 3, Downvote "ghost")] in
  (budgetInRange s /\ pointsNonNegative s) /\
  Forall (fun s' => budgetInRange s' /\ pointsNonNegative s') (statesAfter calls s).
Proof.
  assert (B : budgetInRange
                (Scenario.stateOf [Scenario.itemX; Scenario.itemY] 1 SortPoints)).
  { unfold budgetInRange, MAX_DAILY_POINTS. simpl. lia. }
  assert (P : pointsNonNegative
                (Scenario.stateOf [Scenario.itemX; Scenario.itemY] 1 SortPoints)).
  { unfold pointsNonNegative. simpl. repeat constructor; simpl; lia. }
  split; [split; assumption|].
  apply votes_keep_budget_and_points; assumption.
Defined.

(** ** Votes that are refused *)

Lemma refreshSelected_absent (id : string) (l : list Item) (sel : option Item) :
  find (hasId id) l = None -> refreshSelected id l sel = sel.
Proof.
  intros F. unfold refreshSelected. rewrite F.
  destruct sel as [cur|]; [destruct (hasId id cur)|]; reflexivity.
Qed.

(** A downvote on an item without points, or on no item, leaves the items
    and the selected item alone and plays the warning; the budget is
    written all the same. *)
Lemma removePoint_refused (now : Z) (id : string) (s : State) :
  match find (hasId id) (items s) with
  | None => True
  | Some target => WishlistItem.points target <= 0
  end ->
  items (fst (removePoint now id s)) = items s
  /\ selectedItem (fst (removePoint now id s)) = selectedItem s
  /\ lastResetDate (fst (removePoint now id s)) = lastResetDate s
  /\ snd (removePoint now id s) = [NotificationWarning; ImpactLight].
Proof.
  intros H. unfold removePoint.
  destruct (find (hasId id) (items s)) as [target|].
  - apply Z.leb_le in H. rewrite H. repeat split; reflexivity.
  - repeat split; reflexivity.
Qed.

(** C2 (the code departs from the claim here). On a state whose only item Y
    has zero points and whose budget is 1, under a sort mode that does not
    freeze the list, [removePoint] on Y leaves the items, the selected item
    and the reset date as they are and plays the warning, yet it writes the
    refund: [remainingPoints] goes from 1 to 2. *)
Theorem removePoint_zero_points_refunds :
  let s := Scenario.stateOf [Scenario.itemY] 1 SortDate in
  let s' := fst (removePoint Scenario.noon "Y" s) in
  find (hasId "Y") (items s) = Some Scenario.itemY
  /\ WishlistItem.points Scenario.itemY = 0
  /\ items s' = items s
  /\ snd (removePoint Scenario.noon "Y" s) = [NotificationWarning; ImpactLight]
  /\ remainingPoints s = 1
  /\ remainingPoints s' = 2.
Proof. vm_compute. repeat split. Qed.

(** C3, as stated, fails: with a budget of 3 and no item of id "ghost",
    [addPoint] on "ghost" lowers [remainingPoints]. *)
Lemma addPoint_absent_id_counterexample :
  let s := Scenario.stateOf [Scenario.itemY] 3 SortDate in
  ~ present "ghost" s
  /\ remainingPoints (fst (addPoint Scenario.noon "ghost" s)) = 2
  /\ remainingPoints (fst (addPoint Scenario.noon "ghost" s))
     <> remainingPoints s.
Proof.
  cbv zeta. split; [|split].
  - unfold present. simpl. intros [H|[]]. discriminate H.
  - reflexivity.
  - vm_compute. discriminate.
Qed.

(** C3, amended. For an id that no item has, [addPoint] and [removePoint]
    leave the item collection and the selected item unchanged, and
    [removePoint] plays the warning; [addPoint] makes no check of the id:
    with a positive budget it plays the success feedback and takes one point
    off [remainingPoints], and only an empty budget makes it warn and leave
    [remainingPoints] as it is. *)
Theorem votes_on_absent_id (now : Z) (id : string) (s : State) :
  ~ present id s ->
  (items (fst (addPoint now id s)) = items s
   /\ selectedItem (fst (addPoint now id s)) = selectedItem s)
  /\ (items (fst (removePoint now id s)) = items s
      /\ selectedItem (fst (removePoint now id s)) = selectedItem s
      /\ In NotificationWarning (snd (removePoint now id s)))
  /\ remainingPoints (fst (addPoint now id s)) =
     (if remainingPoints s >? 0 then remainingPoints s - 1
      else remainingPoints s)
  /\ snd (addPoint now id s) =
     (if remainingPoints s >? 0 then [ImpactLight] else [NotificationWarning]).
Proof.
  intros A. unfold present in A.
  pose proof (absent_find id (items s) A) as F.
  split; [|split; [|split]].
  - unfold addPoint. destruct (Z.leb_spec (remainingPoints s) 0); cbn.
    + split; reflexivity.
    + rewrite absent_map by assumption. split; [reflexivity|].
      now apply refreshSelected_absent.
  - destruct (removePoint_refused now id s) as (I & S & _ & X).
    + now rewrite F.
    + rewrite I, S, X. repeat split. now left.
  - apply addPoint_remainingPoints.
  - unfold addPoint.
    destruct (Z.leb_spec (remainingPoints s) 0);
      destruct (Z.gtb_spec (remainingPoints s) 0); try lia; reflexivity.
Qed.

Lemma votes_on_absent_id_witness :
  let s := Scenario.stateOf [Scenario.itemY] 3 SortPoints in
  ~ present "ghost" s
  /\ items (fst (addPoint Scenario.noon "ghost" s)) = items s
  /\ remainingPoints (fst (addPoint Scenario.noon "ghost" s)) = 2.
Proof.
  assert (A : ~ present "ghost" (Scenario.stateOf [Scenario.itemY] 3 SortPoints)).
  { unfold present. simpl. intros [H|[]]. discriminate H. }
  split; [exact A|].
  destruct (votes_on_absent_id Scenario.noon "ghost" _ A) as ((I & _) & _ & R & _).
  split; [exact I | exact R].
Defined.

(** ** The history entry of the day of a downvote *)

Lemma deltaOn_updateFirst_same (today : string) (f : Z -> Z) (h : list PointEntry.t) :
  deltaOn today (updateFirst (isToday today) f h) =
  option_map f (deltaOn today h).
Proof.
  unfold deltaOn. induction h as [|e h IH]; [reflexivity|].
  cbn [updateFirst find]. destruct (isToday today e) eqn:E.
  - cbn [find]. unfold isToday in *. cbn [PointEntry.date]. now rewrite E.
  - cbn [find]. now rewrite E.
Qed.

Lemma deltaOn_updateFirst_other (today day : string) (f : Z -> Z)
    (h : list PointEntry.t) :
  day <> today ->
  deltaOn day (updateFirst (isToday today) f h) = deltaOn day h.
Proof.
  intros N. unfold deltaOn. induction h as [|e h IH]; [reflexivity|].
  cbn [updateFirst find]. destruct (isToday today e) eqn:E.
  - cbn [find]. unfold isToday in *. cbn [PointEntry.date].
    apply String.eqb_eq in E. rewrite E.
    replace (String.eqb today day) with false; [reflexivity|].
    symmetry. apply String.eqb_neq. congruence.
  - cbn [find]. destruct (isToday day e); [reflexivity | exact IH].
Qed.

Lemma deltaOn_push (day today : string) (p : Z) (h : list PointEntry.t) :
  deltaOn day (h ++ [PointEntry.mk today p]) =
  match deltaOn day h with
  | Some q => Some q
  | None => if String.eqb today day then Some p else None
  end.
Proof.
  unfold deltaOn. induction h as [|e h IH]; cbn [app find].
  - unfold isToday. cbn [PointEntry.date]. now destruct (String.eqb today day).
  - destruct (isToday day e); [reflexivity | exact IH].
Qed.

Lemma deltaOn_none (day : string) (h : list PointEntry.t) :
  deltaOn day h = None <-> find (isToday day) h = None.
Proof. unfold deltaOn. destruct (find _ h); simpl; split; congruence. Qed.

(** What [removePoint] leaves in the history, day by day. *)
Lemma downvoteHistory_deltaOn (today : string) (h : option (list PointEntry.t)) :
  deltaOn today (downvoteHistory today h) =
  Some (match deltaOn today (orEmpty h) with
        | None => -1
        | Some e => Z.max 0 (e - 1)
        end)
  /\ forall day, day <> today ->
       deltaOn day (downvoteHistory today h) = deltaOn day (orEmpty h).
Proof.
  unfold downvoteHistory. cbv zeta.
  destruct (find (isToday today) (orEmpty h)) as [e|] eqn:F.
  - split.
    + rewrite deltaOn_updateFirst_same. unfold deltaOn. now rewrite F.
    + intros day N. now apply deltaOn_updateFirst_other.
  - apply deltaOn_none in F. split.
    + rewrite deltaOn_push, F. now rewrite String.eqb_refl.
    + intros day N. rewrite deltaOn_push.
      destruct (deltaOn day (orEmpty h)); [reflexivity|].
      replace (String.eqb today day) with false; [reflexivity|].
      symmetry. apply String.eqb_neq. congruence.
Qed.

Lemma find_map_hasId (id : string) (f : Item -> Item) (l : list Item) :
  (forall it, WishlistItem.id (f it) = WishlistItem.id it) ->
  find (hasId id) (map (fun it => if hasId id it then f it else it) l) =
  option_map f (find (hasId id) l).
Proof.
  intros K. induction l as [|it l IH]; [reflexivity|].
  cbn [map find]. destruct (hasId id it) eqn:E.
  - unfold hasId at 1. rewrite K. fold (hasId id it). now rewrite E.
  - now rewrite E.
Qed.

(** C4, as stated, fails: item X has 3 points and an entry of 0 for the day
    of the vote; after [removePoint] the entry is still 0, not -1. *)
Lemma downvote_entry_at_zero_counterexample :
  let today := getTodayKey Scenario.noon in
  let s := Scenario.stateOf [Scenario.itemX] 5 SortDate in
  let s' := fst (removePoint Scenario.noon "X" s) in
  let entryIn (st : State) :=
    match find (hasId "X") (items st) with
    | Some it => deltaOn today (orEmpty (WishlistItem.pointHistory it))
    | None => None
    end in
  WishlistItem.points Scenario.itemX = 3
  /\ entryIn s = Some 0
  /\ entryIn s' = Some 0
  /\ entryIn s' <> Some (-1).
Proof. vm_compute. repeat split; discriminate. Qed.

(** C4, amended. For an item with points > 0, [removePoint] takes one point
    off the item and rewrites the entry of the day of the vote: with no
    entry for that day-key it adds one with delta -1; an entry that exists
    becomes max(0, entry - 1), so it is clamped at zero and an entry at 0
    stays 0. The entries of the other days keep their deltas. *)
Theorem downvote_updates_today (now : Z) (id : string) (s : State) (target : Item) :
  find (hasId id) (items s) = Some target ->
  0 < WishlistItem.points target ->
  let today := getTodayKey now in
  let before := orEmpty (WishlistItem.pointHistory target) in
  exists after,
    find (hasId id) (items (fst (removePoint now id s))) = Some after
    /\ WishlistItem.points after = WishlistItem.points target - 1
    /\ deltaOn today (orEmpty (WishlistItem.pointHistory after)) =
       Some (match deltaOn today before with
             | None => -1
             | Some e => Z.max 0 (e - 1)
             end)
    /\ forall day, day <> today ->
         deltaOn day (orEmpty (WishlistItem.pointHistory after)) =
         deltaOn day before.
Proof.
  intros F P today before. exists (downvoted today target).
  rewrite removePoint_items, F.
  replace (WishlistItem.points target <=? 0) with false
    by (symmetry; apply Z.leb_gt; exact P).
  rewrite find_map_hasId by reflexivity. rewrite F. cbn [option_map].
  split; [reflexivity|]. split.
  - rewrite downvoted_points. lia.
  - exact (downvoteHistory_deltaOn today (WishlistItem.pointHistory target)).
Qed.

Lemma downvote_updates_today_witness :
  let s := Scenario.stateOf [Scenario.itemX] 5 SortDate in
  (find (hasId "X") (items s) = Some Scenario.itemX
   /\ 0 < WishlistItem.points Scenario.itemX)
  /\ exists after,
       find (hasId "X") (items (fst (removePoint Scenario.noon "X" s))) = Some after
       /\ WishlistItem.points after = 2
       /\ deltaOn "2024-03-10" (orEmpty (WishlistItem.pointHistory after)) = Some 0.
Proof.
  assert (F : find (hasId "X")
                (items (Scenario.stateOf [Scenario.itemX] 5 SortDate))
              = Some Scenario.itemX) by reflexivity.
  assert (P : 0 < WishlistItem.points Scenario.itemX) by (simpl; lia).
  split; [split; assumption|].
  destruct (downvote_updates_today Scenario.noon "X" _ _ F P) as (after & A & B & C & _).
  exists after. split; [exact A|]. split; [exact B|]. exact C.
Defined.

(** ** The daily reset *)

(** C9. [checkAndResetDailyPoints] called a second time on the same day-key
    changes nothing: the state after two calls is the state after one, so
    neither [remainingPoints] nor [lastResetDate] moves. *)
Theorem checkAndReset_idempotent (now1 now2 : Z) (s : State) :
  getTodayKey now1 = getTodayKey now2 ->
  checkAndResetDailyPoints now2 (checkAndResetDailyPoints now1 s) =
  checkAndResetDailyPoints now1 s.
Proof.
  intros K. unfold checkAndResetDailyPoints. cbv zeta. rewrite <- K.
  destruct (String.eqb (lastResetDate s) (getTodayKey now1)) eqn:E;
    cbn [negb]; cbv iota.
  - now rewrite E.
  - cbn [lastResetDate]. now rewrite String.eqb_refl.
Qed.

Lemma checkAndReset_idempotent_witness :
  let s := mkState [Scenario.itemX] 4 "2024-03-09" false SortPoints None false [] [] in
  let later := Scenario.noon + 3600000 in
  getTodayKey Scenario.noon = getTodayKey later
  /\ checkAndResetDailyPoints later (checkAndResetDailyPoints Scenario.noon s) =
     checkAndResetDailyPoints Scenario.noon s
  /\ remainingPoints (checkAndResetDailyPoints Scenario.noon s) = MAX_DAILY_POINTS.
Proof.
  assert (K : getTodayKey Scenario.noon = getTodayKey (Scenario.noon + 3600000))
    by reflexivity.
  split; [exact K|]. split.
  - apply checkAndReset_idempotent. exact K.
  - reflexivity.
Defined.

(** ** Weekly points and trend tiers *)

Section Weekly.
Import IsoDate IsoDateFacts.

Lemma weeklyLoop_acc (key : string) (h : list PointEntry.t) (acc : Z) :
  weeklyLoop key h acc = acc + weeklyLoop key h 0.
Proof.
  revert acc. induction h as [|e h IH]; intros acc; cbn [weeklyLoop]; [lia|].
  destruct (str_ge (PointEntry.date e) key).
  - rewrite (IH (acc + PointEntry.points e)), (IH (0 + PointEntry.points e)). lia.
  - apply IH.
Qed.

Lemma weeklyLoop_days (k : Z) (h : list (Z * Z)) :
  inRange k -> Forall (fun e => inRange (fst e)) h ->
  weeklyLoop (keyOfDay k) (historyOfDays h) 0 = sumWhere (fun d => k <=? d) h.
Proof.
  intros K. induction 1 as [|e h R _ IH]; [reflexivity|].
  cbn [historyOfDays map weeklyLoop sumWhere PointEntry.date PointEntry.points].
  rewrite (str_ge_keyOfDay (fst e) k R K).
  fold (historyOfDays h).
  destruct (k <=? fst e); [rewrite weeklyLoop_acc|]; rewrite IH; lia.
Qed.

Lemma sevenDaysAgoKey_day (now : Z) :
  sevenDaysAgoKey now = keyOfDay (dayOf now - 7).
Proof.
  unfold sevenDaysAgoKey, toISOStringSlice10, keyOfDay.
  now rewrite dayOf_week_ago.
Qed.

Lemma getWeeklyPoints_loop (now : Z) (item : Item) :
  getWeeklyPoints now item =
  weeklyLoop (sevenDaysAgoKey now) (orEmpty (WishlistItem.pointHistory item)) 0.
Proof.
  unfold getWeeklyPoints.
  destruct (WishlistItem.pointHistory item) as [[|e h]|]; reflexivity.
Qed.

Lemma getWeeklyPoints_days (now : Z) (item : Item) (h : list (Z * Z)) :
  orEmpty (WishlistItem.pointHistory item) = historyOfDays h ->
  Forall (fun e => inRange (fst e)) h ->
  inRange (dayOf now - 7) ->
  getWeeklyPoints now item = sumWhere (codeWindow (dayOf now)) h.
Proof.
  intros H R K. rewrite getWeeklyPoints_loop, H, sevenDaysAgoKey_day.
  now apply weeklyLoop_days.
Qed.

(** C5, as stated, fails: an entry dated exactly seven days before the day
    of evaluation, which the seven-day window of the claim leaves out, is
    counted by [getWeeklyPoints]. *)
Lemma weeklyPoints_seventh_day_counterexample :
  let D := dayOf Scenario.noon in
  let h := [(D - 7, 6)] in
  let item := Scenario.plain "W" 20 6 (Some (historyOfDays h)) in
  keyOfDay D = "2024-03-10"
  /\ historyOfDays h = [PointEntry.mk "2024-03-03" 6]
  /\ specWeeklyPoints D h = 0
  /\ getWeeklyPoints Scenario.noon item = 6
  /\ getWeeklyPoints Scenario.noon item <> specWeeklyPoints D h.
Proof. vm_compute. repeat split; discriminate. Qed.

(** C5, amended. For an item whose history holds the day-keys of the days
    in [h], evaluated at an instant of day D, [getWeeklyPoints] is the sum,
    with the deltas taken as they are and nothing clamped, of exactly the
    entries whose day is D - 7 or later: the eight day-keys D - 7 to D, and
    any later one. An entry dated D - 10 adds nothing; an entry dated
    exactly D - 7 is counted. An item without the field is an item with an
    empty history, and has 0. *)
Theorem weeklyPoints_window (now : Z) (item : Item) (h : list (Z * Z)) :
  orEmpty (WishlistItem.pointHistory item) = historyOfDays h ->
  Forall (fun e => inRange (fst e)) h ->
  inRange (dayOf now - 7) ->
  getWeeklyPoints now item = sumWhere (codeWindow (dayOf now)) h
  /\ (forall d, codeWindow (dayOf now) d = true <-> dayOf now - 7 <= d)
  /\ codeWindow (dayOf now) (dayOf now - 10) = false
  /\ codeWindow (dayOf now) (dayOf now - 7) = true.
Proof.
  intros H R K. split; [now apply getWeeklyPoints_days|].
  unfold codeWindow. split; [intros d; apply Z.leb_le|].
  split; [apply Z.leb_gt | apply Z.leb_le]; lia.
Qed.

Lemma weeklyPoints_window_witness :
  let D := dayOf Scenario.noon in
  let h := [(D - 10, 6); (D - 7, 4); (D, -1)] in
  let item := Scenario.plain "W" 20 9 (Some (historyOfDays h)) in
  (Forall (fun e => inRange (fst e)) h /\ inRange (D - 7))
  /\ getWeeklyPoints Scenario.noon item = 3.
Proof.
  assert (R : Forall (fun e => inRange (fst e))
                [(dayOf Scenario.noon - 10, 6); (dayOf Scenario.noon - 7, 4);
                 (dayOf Scenario.noon, -1)]).
  { repeat constructor; vm_compute; discriminate. }
  assert (K : inRange (dayOf Scenario.noon - 7)).
  { split; vm_compute; discriminate. }
  split; [split; assumption|].
  destruct (weeklyPoints_window Scenario.noon
              (Scenario.plain "W" 20 9
                 (Some (historyOfDays
                    [(dayOf Scenario.noon - 10, 6); (dayOf Scenario.noon - 7, 4);
                     (dayOf Scenario.noon, -1)]))) _ eq_refl R K) as [E _].
  rewrite E. reflexivity.
Defined.

Lemma getTrendingStatus_tiers (now : Z) (item : Item) :
  let w := getWeeklyPoints now item in
  (10 <= w -> getTrendingStatus now item = hot)
  /\ (5 <= w < 10 -> getTrendingStatus now item = trending)
  /\ (w < 5 -> getTrendingStatus now item = none).
Proof.
  cbv zeta. unfold getTrendingStatus. cbv zeta.
  destruct (Z.geb_spec (getWeeklyPoints now item) 10);
    destruct (Z.geb_spec (getWeeklyPoints now item) 5);
    repeat split; intros; try reflexivity; lia.
Qed.

(** C6. [getTrendingStatus] is hot when the weekly points are at least 10,
    trending when they are at least 5 and below 10, and none below 5. An
    item whose history has 6 on day D - 2 and 5 on day D - 6, evaluated on
    day D, has 11 weekly points and is hot. *)
Theorem trend_tiers_and_scenario :
  (forall now item,
     let w := getWeeklyPoints now item in
     (10 <= w -> getTrendingStatus now item = hot)
     /\ (5 <= w < 10 -> getTrendingStatus now item = trending)
     /\ (w < 5 -> getTrendingStatus now item = none))
  /\ (forall now item,
        inRange (dayOf now - 7) -> inRange (dayOf now) ->
        WishlistItem.pointHistory item =
          Some (historyOfDays [(dayOf now - 2, 6); (dayOf now - 6, 5)]) ->
        getWeeklyPoints now item = 11 /\ getTrendingStatus now item = hot).
Proof.
  split; [exact getTrendingStatus_tiers|].
  intros now item K R H.
  assert (W : getWeeklyPoints now item = 11).
  { rewrite (getWeeklyPoints_days now item
               [(dayOf now - 2, 6); (dayOf now - 6, 5)]).
    - unfold codeWindow. cbn [sumWhere fst snd].
      replace (dayOf now - 7 <=? dayOf now - 2) with true
        by (symmetry; apply Z.leb_le; lia).
      replace (dayOf now - 7 <=? dayOf now - 6) with true
        by (symmetry; apply Z.leb_le; lia).
      reflexivity.
    - now rewrite H.
    - unfold inRange in *. repeat constructor; cbn [fst]; lia.
    - exact K. }
  split; [exact W|].
  apply (getTrendingStatus_tiers now item). lia.
Qed.

Lemma trend_tiers_and_scenario_witness :
  let D := dayOf Scenario.noon in
  let item := Scenario.plain "T" 20 11
                (Some (historyOfDays [(D - 2, 6); (D - 6, 5)])) in
  (inRange (D - 7) /\ inRange D)
  /\ getWeeklyPoints Scenario.noon item = 11
  /\ getTrendingStatus Scenario.noon item = hot.
Proof.
  assert (K : inRange (dayOf Scenario.noon - 7))
    by (split; vm_compute; discriminate).
  assert (R : inRange (dayOf Scenario.noon))
    by (split; vm_compute; discriminate).
  split; [split; assumption|].
  destruct trend_tiers_and_scenario as [_ S].
  apply (S Scenario.noon
           (Scenario.plain "T" 20 11
              (Some (historyOfDays [(dayOf Scenario.noon - 2, 6);
                                    (dayOf Scenario.noon - 6, 5)]))) K R).
  reflexivity.
Defined.

End Weekly.

(** ** The freeze and its timers *)

Lemma castVote_freezes (now : Z) (v : Vote) (s : State) :
  sortMode s = SortPoints ->
  isSortingFrozen (fst (castVote now v s)) = true
  /\ timers (fst (castVote now v s)) = (timers s ++ [now + freezeDelay])%list
  /\ sortMode (fst (castVote now v s)) = SortPoints.
Proof.
  intros M. destruct v as [id|id]; cbn [castVote].
  - destruct (addPoint_frozen now id s) as (F & _ & K).
    rewrite addPoint_timers, F, K, M. repeat split.
  - destruct (removePoint_frozen now id s) as (F & _ & K).
    rewrite removePoint_timers, F, K, M. repeat split.
Qed.

Lemma elapse_none_due (t : Z) (s : State) :
  Forall (fun d => t < d) (timers s) -> elapse t s = s.
Proof.
  intros H. unfold elapse.
  replace (filter (fun d => d <=? t) (timers s)) with (@nil Z); [reflexivity|].
  symmetry. induction H as [|d l D _ IH]; [reflexivity|].
  cbn [filter]. apply Z.leb_gt in D. now rewrite D.
Qed.

Lemma elapse_some_due (t : Z) (s : State) :
  Exists (fun d => d <= t) (timers s) ->
  isSortingFrozen (elapse t s) = false
  /\ timers (elapse t s) = filter (fun d => negb (d <=? t)) (timers s)
  /\ items (elapse t s) = items s
  /\ hidePurchased (elapse t s) = hidePurchased s
  /\ sortMode (elapse t s) = sortMode s.
Proof.
  intros H. unfold elapse.
  destruct (filter (fun d => d <=? t) (timers s)) as [|d l] eqn:F.
  - exfalso. apply Exists_exists in H as (d & I & D).
    assert (In d (filter (fun d => d <=? t) (timers s))) as X
      by (apply filter_In; split; [assumption | now apply Z.leb_le]).
    rewrite F in X. exact X.
  - repeat split.
Qed.

Lemma sortedItems_live (s : State) :
  isSortingFrozen s = false -> sortMode s = SortPoints ->
  sortedItems s =
  sort byPoints
       (if hidePurchased s
        then filter (fun i => negb (WishlistItem.isPurchased i)) (items s)
        else items s).
Proof. intros F M. unfold sortedItems. now rewrite F, M. Qed.

(** C7, as stated, fails: two upvotes, half a second apart, leave two
    pending timers, due 1000 ms and 1500 ms after the first vote; the first
    one is not cancelled, and 1200 ms after the first vote the view is no
    longer frozen. *)
Lemma second_vote_does_not_rearm_counterexample :
  let t := Scenario.noon in
  let s := Scenario.stateOf [Scenario.itemX; Scenario.itemY] 5 SortPoints in
  let s1 := fst (castVote t (Upvote "X") s) in
  let s2 := fst (castVote (t + 500) (Upvote "X") (elapse (t + 500) s1)) in
  isSortingFrozen s2 = true
  /\ timers s2 = [t + 1000; t + 1500]
  /\ isSortingFrozen (elapse (t + 1200) s2) = false
  /\ isSortingFrozen (elapse (t + 1200) s2) <> true.
Proof. vm_compute. repeat split; discriminate. Qed.

(** C7, amended. Under sort mode points every vote freezes the list and
    starts a timer of its own, due one cooldown after the vote; no pending
    timer is cancelled, and the first timer that comes due unfreezes the
    list. A vote at t and a second vote [gap] later, less than a cooldown
    apart, leave two timers pending; the list stays frozen up to
    t + cooldown, and from t + cooldown on, with no further vote, it is not
    frozen and shows a fresh sort of the live items: with a gap of 500 ms
    and a cooldown of 1000 ms the list is frozen until t + 1000 ms. *)
Theorem votes_start_independent_timers (t gap : Z) (v1 v2 : Vote) (s : State) :
  sortMode s = SortPoints -> timers s = [] -> 0 <= gap < freezeDelay ->
  let s1 := fst (castVote t v1 s) in
  let s2 := fst (castVote (t + gap) v2 (elapse (t + gap) s1)) in
  (isSortingFrozen s1 = true /\ timers s1 = [t + freezeDelay])
  /\ (isSortingFrozen s2 = true
      /\ timers s2 = [t + freezeDelay; t + gap + freezeDelay])
  /\ (forall u, u < t + freezeDelay -> isSortingFrozen (elapse u s2) = true)
  /\ (forall u, t + freezeDelay <= u ->
        isSortingFrozen (elapse u s2) = false
        /\ sortedItems (elapse u s2) =
           sort byPoints
                (if hidePurchased s2
                 then filter (fun i => negb (WishlistItem.isPurchased i)) (items s2)
                 else items s2)).
Proof.
  intros M T G s1 s2.
  destruct (castVote_freezes t v1 s M) as (F1 & T1 & M1).
  fold s1 in F1, T1, M1. rewrite T in T1. cbn [app] in T1.
  assert (E : elapse (t + gap) s1 = s1).
  { apply elapse_none_due. rewrite T1. repeat constructor. lia. }
  destruct (castVote_freezes (t + gap) v2 s1 M1) as (F2 & T2 & M2).
  assert (S2 : s2 = fst (castVote (t + gap) v2 s1))
    by (unfold s2; now rewrite E).
  rewrite <- S2 in F2, T2, M2. rewrite T1 in T2. cbn [app] in T2.
  split; [split; assumption|].
  split; [split; assumption|].
  split.
  - intros u U. rewrite elapse_none_due; [exact F2|].
    rewrite T2. repeat constructor; lia.
  - intros u U.
    destruct (elapse_some_due u s2) as (F & _ & I & H & K).
    { rewrite T2. left. exact U. }
    split; [exact F|].
    rewrite sortedItems_live; [now rewrite I, H | exact F | now rewrite K].
Qed.

Lemma votes_start_independent_timers_witness :
  let t := Scenario.noon in
  let s := Scenario.stateOf [Scenario.itemX; Scenario.itemY] 5 SortPoints in
  let s1 := fst (castVote t (Upvote "Y") s) in
  let s2 := fst (castVote (t + 500) (Downvote "X") (elapse (t + 500) s1)) in
  (sortMode s = SortPoints /\ timers s = [] /\ 0 <= 500 < freezeDelay)
  /\ timers s2 = [t + freezeDelay; t + 500 + freezeDelay]
  /\ isSortingFrozen (elapse (t + 999) s2) = true
  /\ isSortingFrozen (elapse (t + 1000) s2) = false.
Proof.
  assert (G : 0 <= 500 < freezeDelay) by (unfold freezeDelay; lia).
  split; [repeat split; apply G|].
  destruct (votes_start_independent_timers Scenario.noon 500 (Upvote "Y")
              (Downvote "X")
              (Scenario.stateOf [Scenario.itemX; Scenario.itemY] 5 SortPoints)
              eq_refl eq_refl G) as (_ & (_ & T2) & B & A).
  split; [exact T2|]. split.
  - apply B. unfold freezeDelay. lia.
  - apply A. unfold freezeDelay. lia.
Defined.

(** ** Sorting by price *)

Section SortByKey.
Variable key : Item -> Z.

Lemma sortInsert_perm (cmp : Item -> Item -> Z) (x : Item) (l : list Item) :
  Permutation (sortInsert cmp x l) (x :: l).
Proof.
  induction l as [|y l IH]; cbn [sortInsert]; [reflexivity|].
  destruct (cmp x y <=? 0); [reflexivity|].
  rewrite IH. apply perm_swap.
Qed.

Lemma sort_perm (cmp : Item -> Item -> Z) (l : list Item) :
  Permutation (sort cmp l) l.
Proof.
  induction l as [|x l IH]; [reflexivity|].
  unfold sort in *. cbn [fold_right]. rewrite sortInsert_perm. now constructor.
Qed.

Lemma sortInsert_descending (x : Item) (l : list Item) :
  descendingBy key l ->
  descendingBy key (sortInsert (compareDescending key) x l).
Proof.
  unfold descendingBy. induction 1 as [|y l S IH F]; cbn [sortInsert].
  - repeat constructor.
  - unfold compareDescending at 1. destruct (Z.leb_spec (key y - key x) 0) as [L|L].
    + constructor; [now constructor|].
      constructor; [lia|].
      eapply Forall_impl; [|exact F]. cbv beta. intros b B. lia.
    + constructor; [exact IH|].
      eapply Permutation_Forall; [symmetry; apply sortInsert_perm|].
      constructor; [lia | exact F].
Qed.

Lemma sort_descending (l : list Item) :
  descendingBy key (sort (compareDescending key) l).
Proof.
  induction l as [|x l IH]; [constructor|].
  unfold sort in *. cbn [fold_right]. now apply sortInsert_descending.
Qed.

End SortByKey.

(** C8, as stated, fails: item A costs 10 and shows its selected option at
    100, item B costs 50; under sort mode price the list is B, A, and the
    prices it shows, 50 then 100, are not in descending order. *)
Lemma price_sort_ignores_option_counterexample :
  let s := Scenario.stateOf [Scenario.itemA; Scenario.itemB] 3 SortPrice in
  displayedPrice Scenario.itemA = 100
  /\ sortedItems s = [Scenario.itemB; Scenario.itemA]
  /\ map displayedPrice (sortedItems s) = [50; 100]
  /\ ~ descendingBy displayedPrice (sortedItems s).
Proof.
  cbv zeta. split; [reflexivity|]. split; [reflexivity|]. split; [reflexivity|].
  change (sortedItems (Scenario.stateOf [Scenario.itemA; Scenario.itemB] 3 SortPrice))
    with [Scenario.itemB; Scenario.itemA].
  unfold descendingBy. intros S.
  apply StronglySorted_inv in S as [_ F].
  apply Forall_inv in F. vm_compute in F. apply F. reflexivity.
Qed.

(** C8, amended. Under sort mode price the ranking view holds the items of
    its source (the frozen snapshot or the live items, without the purchased
    ones when they are hidden) in descending order of the item's own
    [price] field; a selected option changes what the row displays, not
    where the row is. *)
Theorem price_sort_uses_own_price (s : State) :
  sortMode s = SortPrice ->
  descendingBy WishlistItem.price (sortedItems s)
  /\ Permutation (sortedItems s) (rankedSource s)
  /\ map WishlistItem.price (displayedItems s) =
     map displayedPrice (sortedItems s).
Proof.
  intros M.
  assert (E : sortedItems s = sort byPrice (rankedSource s)).
  { unfold sortedItems, rankedSource. now rewrite M. }
  split; [|split].
  - rewrite E. apply (sort_descending WishlistItem.price).
  - rewrite E. apply sort_perm.
  - unfold displayedItems. now rewrite map_map.
Qed.

Lemma price_sort_uses_own_price_witness :
  let s := Scenario.stateOf [Scenario.itemA; Scenario.itemB] 3 SortPrice in
  sortMode s = SortPrice
  /\ descendingBy WishlistItem.price (sortedItems s)
  /\ map WishlistItem.price (sortedItems s) = [50; 10].
Proof.
  split; [reflexivity|]. split; [|reflexivity].
  apply (price_sort_uses_own_price
           (Scenario.stateOf [Scenario.itemA; Scenario.itemB] 3 SortPrice)
           eq_refl).
Defined.

(** ** The first option of an item *)

Lemma addOptionToItem_items (itemId : string) (option : ItemOption.t) (s : State) :
  items (addOptionToItem itemId option s) =
  map (fun item => if hasId itemId item then withOptionAdded option item
                   else item) (items s).
Proof.
  unfold addOptionToItem. cbn [setItemsSel items].
  apply map_ext. intros item. now destruct (hasId itemId item).
Qed.

(** C10. [addOptionToItem] selects the option it adds only when the
    [options] field of the item is an empty list; with the field absent, or
    with options in it, [selectedOptionId] stays as it was. An item made by
    [saveNewItem] has no [options] field, so after its first option is added
    it has that one option, no selected option, and displays its own name,
    price, link and image. *)
Theorem first_option_selected_only_on_empty_list :
  (forall itemId option s,
     items (addOptionToItem itemId option s) =
     map (fun item => if hasId itemId item then withOptionAdded option item
                      else item) (items s))
  /\ (forall option item,
        WishlistItem.selectedOptionId (withOptionAdded option item) =
        match WishlistItem.options item with
        | Some [] => Some (ItemOption.id option)
        | Some (_ :: _) | None => WishlistItem.selectedOptionId item
        end)
  /\ (forall now name price link imageUrl option s,
        name <> "" -> 0 <= price ->
        exists fresh,
          items (saveNewItem now name price link imageUrl s) = fresh :: items s
          /\ WishlistItem.options fresh = None
          /\ WishlistItem.selectedOptionId fresh = None
          /\ exists shown,
               hd_error (items (addOptionToItem (WishlistItem.id fresh) option
                                  (saveNewItem now name price link imageUrl s)))
               = Some shown
               /\ WishlistItem.options shown = Some [option]
               /\ WishlistItem.selectedOptionId shown = None
               /\ getCurrentDisplayItem shown = shown
               /\ WishlistItem.name shown = name
               /\ WishlistItem.price shown = price
               /\ WishlistItem.link shown = link
               /\ WishlistItem.imageUrl shown = imageUrl).
Proof.
  split; [exact addOptionToItem_items|]. split.
  - intros option item. unfold withOptionAdded, optionsLengthIsZero.
    cbn [WishlistItem.with_options WishlistItem.selectedOptionId].
    destruct (WishlistItem.options item) as [[|o os]|]; reflexivity.
  - intros now name price link imageUrl option s N P.
    exists (newItem now name price link imageUrl).
    assert (S : saveNewItem now name price link imageUrl s =
                setItemsSel s (newItem now name price link imageUrl :: items s)
                            (selectedItem s)).
    { unfold saveNewItem.
      replace (String.eqb name "") with false
        by (symmetry; now apply String.eqb_neq).
      replace (price <? 0) with false by (symmetry; apply Z.ltb_ge; exact P).
      reflexivity. }
    rewrite S. split; [reflexivity|]. split; [reflexivity|].
    split; [reflexivity|].
    exists (withOptionAdded option (newItem now name price link imageUrl)).
    split; [|repeat split].
    rewrite addOptionToItem_items. cbn [setItemsSel items map hd_error].
    unfold hasId. now rewrite String.eqb_refl.
Qed.

Lemma first_option_selected_only_on_empty_list_witness :
  let s := Scenario.stateOf [Scenario.itemB] 3 SortPoints in
  let s1 := saveNewItem Scenario.noon "Bike" 900 None None s in
  let s2 := addOptionToItem "1710072000000" Scenario.bikeOption s1 in
  let s3 := addOptionToItem "1710072000000" Scenario.bikeOption
              (deleteOption "1710072000000" "o1" s2) in
  ("Bike" <> "" /\ 0 <= 900)
  /\ (exists fresh, items s1 = fresh :: items s
                    /\ WishlistItem.options fresh = None)
  /\ map WishlistItem.selectedOptionId (items s2) = [None; None]
  /\ map WishlistItem.selectedOptionId (items s3) = [Some "o1"; None].
Proof.
  assert (N : "Bike" <> "") by discriminate.
  assert (P : 0 <= 900) by lia.
  split; [split; assumption|].
  destruct first_option_selected_only_on_empty_list as (_ & _ & F).
  destruct (F Scenario.noon "Bike" 900 None None Scenario.bikeOption
              (Scenario.stateOf [Scenario.itemB] 3 SortPoints) N P)
    as (fresh & I & O & _).
  split; [exists fresh; split; assumption|].
  split; reflexivity.
Defined.

(** * Further properties of the engine *)

(** ** Votes on an item that is there *)

Lemma upvoteHistory_deltaOn (today : string) (h : option (list PointEntry.t)) :
  deltaOn today (upvoteHistory today h) =
  Some (match deltaOn today (orEmpty h) with
        | None => 1
        | Some e => e + 1
        end)
  /\ forall day, day <> today ->
       deltaOn day (upvoteHistory today h) = deltaOn day (orEmpty h).
Proof.
  unfold upvoteHistory. cbv zeta.
  destruct (find (isToday today) (orEmpty h)) as [e|] eqn:F.
  - split.
    + rewrite deltaOn_updateFirst_same. unfold deltaOn. now rewrite F.
    + intros day N. now apply deltaOn_updateFirst_other.
  - apply deltaOn_none in F. split.
    + rewrite deltaOn_push, F. now rewrite String.eqb_refl.
    + intros day N. rewrite deltaOn_push.
      destruct (deltaOn day (orEmpty h)); [reflexivity|].
      replace (String.eqb today day) with false; [reflexivity|].
      symmetry. apply String.eqb_neq. congruence.
Qed.

Lemma addPoint_accepted (now : Z) (id : string) (s : State) :
  0 < remainingPoints s ->
  items (fst (addPoint now id s)) =
    map (fun it => if hasId id it then upvoted (getTodayKey now) it else it)
        (items s)
  /\ remainingPoints (fst (addPoint now id s)) = remainingPoints s - 1
  /\ snd (addPoint now id s) = [ImpactLight].
Proof.
  intros B. unfold addPoint.
  destruct (Z.leb_spec (remainingPoints s) 0); [lia|].
  destruct (Z.gtb_spec (remainingPoints s) 0); [|lia].
  repeat split.
Qed.

Lemma addPoint_refused (now : Z) (id : string) (s : State) :
  remainingPoints s <= 0 ->
  items (fst (addPoint now id s)) = items s
  /\ remainingPoints (fst (addPoint now id s)) = remainingPoints s
  /\ selectedItem (fst (addPoint now id s)) = selectedItem s
  /\ snd (addPoint now id s) = [NotificationWarning].
Proof.
  intros B. unfold addPoint.
  destruct (Z.leb_spec (remainingPoints s) 0); [|lia].
  destruct (Z.gtb_spec (remainingPoints s) 0); [lia|].
  repeat split.
Qed.

Lemma removePoint_accepted (now : Z) (id : string) (s : State) (target : Item) :
  find (hasId id) (items s) = Some target ->
  0 < WishlistItem.points target ->
  items (fst (removePoint now id s)) =
    map (fun it => if hasId id it then downvoted (getTodayKey now) it else it)
        (items s)
  /\ snd (removePoint now id s) = [ImpactLight].
Proof.
  intros F P. unfold removePoint. rewrite F.
  replace (WishlistItem.points target <=? 0) with false
    by (symmetry; apply Z.leb_gt; exact P).
  split; reflexivity.
Qed.

(** X1. An upvote on an item that is there, with budget left, takes one point
    off the budget, adds one to the item's points and plays the success
    feedback only; the entry of the day of the vote is created at 1 or
    raised by 1, and the entries of the other days keep their deltas. *)
Theorem upvote_updates_today (now : Z) (id : string) (s : State) (target : Item) :
  find (hasId id) (items s) = Some target ->
  0 < remainingPoints s ->
  let today := getTodayKey now in
  let before := orEmpty (WishlistItem.pointHistory target) in
  remainingPoints (fst (addPoint now id s)) = remainingPoints s - 1
  /\ snd (addPoint now id s) = [ImpactLight]
  /\ exists after,
       find (hasId id) (items (fst (addPoint now id s))) = Some after
       /\ WishlistItem.points after = WishlistItem.points target + 1
       /\ deltaOn today (orEmpty (WishlistItem.pointHistory after)) =
          Some (match deltaOn today before with
                | None => 1
                | Some e => e + 1
                end)
       /\ forall day, day <> today ->
            deltaOn day (orEmpty (WishlistItem.pointHistory after)) =
            deltaOn day before.
Proof.
  intros F B today before.
  destruct (addPoint_accepted now id s B) as (I & R & X).
  split; [exact R|]. split; [exact X|].
  exists (upvoted today target). rewrite I.
  rewrite find_map_hasId by reflexivity. rewrite F.
  split; [reflexivity|]. split; [reflexivity|].
  exact (upvoteHistory_deltaOn today (WishlistItem.pointHistory target)).
Qed.

Lemma upvote_updates_today_witness :
  let s := Scenario.stateOf [Scenario.itemY; Scenario.itemX] 2 SortDate in
  (find (hasId "X") (items s) = Some Scenario.itemX /\ 0 < remainingPoints s)
  /\ remainingPoints (fst (addPoint Scenario.noon "X" s)) = 1
  /\ exists after,
       find (hasId "X") (items (fst (addPoint Scenario.noon "X" s))) = Some after
       /\ WishlistItem.points after = 4
       /\ deltaOn "2024-03-10" (orEmpty (WishlistItem.pointHistory after)) = Some 1.
Proof.
  assert (F : find (hasId "X")
                (items (Scenario.stateOf [Scenario.itemY; Scenario.itemX] 2 SortDate))
              = Some Scenario.itemX) by reflexivity.
  assert (B : 0 < remainingPoints
                    (Scenario.stateOf [Scenario.itemY; Scenario.itemX] 2 SortDate))
    by (simpl; lia).
  split; [split; assumption|].
  destruct (upvote_updates_today Scenario.noon "X" _ _ F B)
    as (R & _ & after & A & P & D & _).
  split; [exact R|]. exists after. repeat split; assumption.
Defined.

(** X2. Upvotes made one after the other on an item that is there are
    granted while the budget lasts and refused after: [n] upvotes from a
    budget [b] leave the budget at [b - min n b] and the item with
    [min n b] more points. *)
Theorem upvotes_stop_at_budget (ts : list Z) (id : string) (s : State)
    (target : Item) :
  find (hasId id) (items s) = Some target ->
  0 <= remainingPoints s ->
  let final := finalState (map (fun t => (t, Upvote id)) ts) s in
  let granted := Z.min (Z.of_nat (List.length ts)) (remainingPoints s) in
  remainingPoints final = remainingPoints s - granted
  /\ exists after,
       find (hasId id) (items final) = Some after
       /\ WishlistItem.points after = WishlistItem.points target + granted.
Proof.
  revert s target. induction ts as [|t ts IH]; intros s target F B.
  - cbn. rewrite Z.min_l by lia. split; [lia|].
    exists target. split; [exact F | lia].
  - cbv zeta. cbn [map finalState fold_left fst snd castVote List.length].
    fold (finalState (map (fun t => (t, Upvote id)) ts) (fst (addPoint t id s))).
    rewrite Nat2Z.inj_succ.
    destruct (Z.eq_dec (remainingPoints s) 0) as [Z0|NZ].
    + destruct (addPoint_refused t id s ltac:(lia)) as (I & R & _).
      destruct (IH (fst (addPoint t id s)) target) as (R' & after & A & P).
      { now rewrite I. } { rewrite R. lia. }
      rewrite R in R', P. split; [lia|].
      exists after. split; [exact A|]. lia.
    + destruct (addPoint_accepted t id s ltac:(lia)) as (I & R & _).
      destruct (IH (fst (addPoint t id s)) (upvoted (getTodayKey t) target))
        as (R' & after & A & P).
      { rewrite I, find_map_hasId by reflexivity. now rewrite F. }
      { rewrite R. lia. }
      rewrite R in R', P. rewrite upvoted_points in P. split; [lia|].
      exists after. split; [exact A|]. lia.
Qed.

Lemma upvotes_stop_at_budget_witness :
  let s := Scenario.stateOf [Scenario.itemX] 3 SortDate in
  let final := finalState (map (fun t => (t, Upvote "X"))
                             [Scenario.noon; Scenario.noon + 1;
                              Scenario.noon + 2; Scenario.noon + 3]) s in
  (find (hasId "X") (items s) = Some Scenario.itemX /\ 0 <= remainingPoints s)
  /\ remainingPoints final = 0
  /\ map WishlistItem.points (items final) = [6].
Proof.
  assert (F : find (hasId "X") (items (Scenario.stateOf [Scenario.itemX] 3 SortDate))
              = Some Scenario.itemX) by reflexivity.
  assert (B : 0 <= remainingPoints (Scenario.stateOf [Scenario.itemX] 3 SortDate))
    by (simpl; lia).
  split; [split; assumption|].
  destruct (upvotes_stop_at_budget
              [Scenario.noon; Scenario.noon + 1; Scenario.noon + 2; Scenario.noon + 3]
              "X" _ _ F B) as (R & _).
  split; [exact R | reflexivity].
Defined.

Lemma otherThan_vote (id : string) (f : Item -> Item) (l : list Item) :
  (forall it, WishlistItem.id (f it) = WishlistItem.id it) ->
  otherThan id (map (fun it => if hasId id it then f it else it) l) =
  otherThan id l.
Proof.
  intros K. induction l as [|it l IH]; [reflexivity|].
  cbn [map otherThan filter]. fold (otherThan id l).
  fold (otherThan id (map (fun it => if hasId id it then f it else it) l)).
  destruct (hasId id it) eqn:E.
  - unfold hasId at 1. rewrite K. fold (hasId id it). rewrite E. exact IH.
  - rewrite E. cbn [negb]. now rewrite IH.
Qed.

(** X3. An upvote followed by a downvote on the same item gives the budget
    point back and returns the item to its points, whatever the other items
    are, which are left alone; when both votes fall on one day, the entry
    of that day ends at max(0, e), [e] being its delta before the two votes
    (0 when there was no entry): the pair undoes itself in the history only
    when that delta was not negative. *)
Theorem upvote_then_downvote (now1 now2 : Z) (id : string) (s : State)
    (target : Item) :
  find (hasId id) (items s) = Some target ->
  0 <= WishlistItem.points target ->
  0 < remainingPoints s <= MAX_DAILY_POINTS ->
  let s1 := fst (addPoint now1 id s) in
  let s2 := fst (removePoint now2 id s1) in
  remainingPoints s2 = remainingPoints s
  /\ otherThan id (items s2) = otherThan id (items s)
  /\ exists after,
       find (hasId id) (items s2) = Some after
       /\ WishlistItem.points after = WishlistItem.points target
       /\ (getTodayKey now1 = getTodayKey now2 ->
           deltaOn (getTodayKey now1) (orEmpty (WishlistItem.pointHistory after)) =
           Some (Z.max 0
                   (match deltaOn (getTodayKey now1)
                            (orEmpty (WishlistItem.pointHistory target)) with
                    | None => 0
                    | Some e => e
                    end))).
Proof.
  intros F P B s1 s2.
  destruct (addPoint_accepted now1 id s ltac:(lia)) as (I1 & R1 & _).
  fold s1 in I1, R1.
  assert (F1 : find (hasId id) (items s1) =
               Some (upvoted (getTodayKey now1) target)).
  { rewrite I1, find_map_hasId by reflexivity. now rewrite F. }
  assert (P1 : 0 < WishlistItem.points (upvoted (getTodayKey now1) target))
    by (rewrite upvoted_points; lia).
  destruct (removePoint_accepted now2 id s1 _ F1 P1) as (I2 & _).
  fold s2 in I2.
  split; [|split].
  - unfold s2. rewrite removePoint_remainingPoints. fold s1. rewrite R1.
    unfold MAX_DAILY_POINTS in *.
    destruct (Z.ltb_spec (remainingPoints s - 1) 15); lia.
  - rewrite I2, otherThan_vote by reflexivity.
    rewrite I1. now apply otherThan_vote.
  - exists (downvoted (getTodayKey now2) (upvoted (getTodayKey now1) target)).
    split; [|split].
    + rewrite I2, find_map_hasId by reflexivity. now rewrite F1.
    + rewrite downvoted_points, upvoted_points. lia.
    + intros K. rewrite <- K.
      cbn [downvoted upvoted WishlistItem.with_points_history
           WishlistItem.pointHistory orEmpty].
      destruct (downvoteHistory_deltaOn (getTodayKey now1)
                  (Some (upvoteHistory (getTodayKey now1)
                           (WishlistItem.pointHistory target)))) as [D _].
      rewrite D. cbn [orEmpty].
      destruct (upvoteHistory_deltaOn (getTodayKey now1)
                  (WishlistItem.pointHistory target)) as [U _].
      rewrite U.
      destruct (deltaOn (getTodayKey now1)
                  (orEmpty (WishlistItem.pointHistory target)));
        f_equal; lia.
Qed.

Lemma upvote_then_downvote_witness :
  let s := Scenario.stateOf [Scenario.itemY; Scenario.itemX] 2 SortDate in
  let s2 := fst (removePoint (Scenario.noon + 5) "Y"
                   (fst (addPoint Scenario.noon "Y" s))) in
  (find (hasId "Y") (items s) = Some Scenario.itemY
   /\ 0 <= WishlistItem.points Scenario.itemY
   /\ 0 < remainingPoints s <= MAX_DAILY_POINTS)
  /\ remainingPoints s2 = 2
  /\ map WishlistItem.points (items s2) = [0; 3]
  /\ map WishlistItem.pointHistory (items s2)
     = [Some [PointEntry.mk "2024-03-10" 0]; Some [PointEntry.mk "2024-03-10" 0]].
Proof.
  assert (F : find (hasId "Y")
                (items (Scenario.stateOf [Scenario.itemY; Scenario.itemX] 2 SortDate))
              = Some Scenario.itemY) by reflexivity.
  assert (P : 0 <= WishlistItem.points Scenario.itemY) by (simpl; lia).
  assert (B : 0 < remainingPoints
                    (Scenario.stateOf [Scenario.itemY; Scenario.itemX] 2 SortDate)
              <= MAX_DAILY_POINTS)
    by (unfold MAX_DAILY_POINTS; simpl; lia).
  split; [repeat split; try assumption; apply B|].
  destruct (upvote_then_downvote Scenario.noon (Scenario.noon + 5) "Y" _ _ F P B)
    as (R & _).
  split; [exact R|]. split; reflexivity.
Defined.

(** X4. A downvote followed by an upvote on the same item returns the item
    to its points. The budget comes back to what it was only when it was
    below the maximum: at a full budget the refund is capped, and the
    upvote that follows takes a point, so the pair costs one. *)
Theorem downvote_then_upvote (now1 now2 : Z) (id : string) (s : State)
    (target : Item) :
  find (hasId id) (items s) = Some target ->
  0 < WishlistItem.points target ->
  0 <= remainingPoints s <= MAX_DAILY_POINTS ->
  let s1 := fst (removePoint now1 id s) in
  let s2 := fst (addPoint now2 id s1) in
  remainingPoints s2 =
    (if remainingPoints s <? MAX_DAILY_POINTS then remainingPoints s
     else MAX_DAILY_POINTS - 1)
  /\ otherThan id (items s2) = otherThan id (items s)
  /\ exists after,
       find (hasId id) (items s2) = Some after
       /\ WishlistItem.points after = WishlistItem.points target.
Proof.
  intros F P B s1 s2.
  destruct (removePoint_accepted now1 id s _ F P) as (I1 & _).
  fold s1 in I1.
  assert (R1 : remainingPoints s1 =
               if remainingPoints s <? MAX_DAILY_POINTS
               then remainingPoints s + 1 else remainingPoints s)
    by apply removePoint_remainingPoints.
  assert (B1 : 0 < remainingPoints s1).
  { rewrite R1. unfold MAX_DAILY_POINTS in *.
    destruct (Z.ltb_spec (remainingPoints s) 15); lia. }
  destruct (addPoint_accepted now2 id s1 B1) as (I2 & R2 & _).
  fold s2 in I2, R2.
  split; [|split].
  - rewrite R2, R1. unfold MAX_DAILY_POINTS in *.
    destruct (Z.ltb_spec (remainingPoints s) 15); lia.
  - rewrite I2, otherThan_vote by reflexivity.
    rewrite I1. now apply otherThan_vote.
  - exists (upvoted (getTodayKey now2) (downvoted (getTodayKey now1) target)).
    split.
    + rewrite I2, find_map_hasId by reflexivity.
      rewrite I1, find_map_hasId by reflexivity. now rewrite F.
    + rewrite upvoted_points, downvoted_points. lia.
Qed.

Lemma downvote_then_upvote_witness :
  let s := Scenario.stateOf [Scenario.itemX] MAX_DAILY_POINTS SortDate in
  let s2 := fst (addPoint (Scenario.noon + 5) "X"
                   (fst (removePoint Scenario.noon "X" s))) in
  (find (hasId "X") (items s) = Some Scenario.itemX
   /\ 0 < WishlistItem.points Scenario.itemX
   /\ 0 <= remainingPoints s <= MAX_DAILY_POINTS)
  /\ remainingPoints s2 = MAX_DAILY_POINTS - 1
  /\ map WishlistItem.points (items s2) = [3].
Proof.
  assert (F : find (hasId "X")
                (items (Scenario.stateOf [Scenario.itemX] MAX_DAILY_POINTS SortDate))
              = Some Scenario.itemX) by reflexivity.
  assert (P : 0 < WishlistItem.points Scenario.itemX) by (simpl; lia).
  assert (B : 0 <= remainingPoints
                     (Scenario.stateOf [Scenario.itemX] MAX_DAILY_POINTS SortDate)
              <= MAX_DAILY_POINTS)
    by (unfold MAX_DAILY_POINTS; simpl; lia).
  split; [repeat split; try assumption; apply B|].
  destruct (downvote_then_upvote Scenario.noon (Scenario.noon + 5) "X" _ _ F P B)
    as (R & _).
  split; [exact R | reflexivity].
Defined.

(** ** What a vote leaves alone *)

Lemma nonVoteFields_map (id : string) (f : Item -> Item) (l : list Item) :
  (forall it, nonVoteFields (f it) = nonVoteFields it) ->
  map nonVoteFields (map (fun it => if hasId id it then f it else it) l) =
  map nonVoteFields l.
Proof.
  intros K. rewrite map_map. apply map_ext. intros it.
  destruct (hasId id it); [apply K | reflexivity].
Qed.

Lemma castVote_items (now : Z) (v : Vote) (s : State) :
  items (fst (castVote now v s)) = items s
  \/ exists f, (forall it, nonVoteFields (f it) = nonVoteFields it)
               /\ (forall it, WishlistItem.id (f it) = WishlistItem.id it)
               /\ items (fst (castVote now v s)) =
                  map (fun it => if hasId (voteId v) it then f it else it)
                      (items s).
Proof.
  destruct v as [id|id]; cbn [castVote voteId].
  - rewrite addPoint_items. destruct (remainingPoints s <=? 0); [now left|].
    right. exists (upvoted (getTodayKey now)). now repeat split.
  - rewrite removePoint_items.
    destruct (find (hasId id) (items s)) as [target|]; [|now left].
    destruct (WishlistItem.points target <=? 0); [now left|].
    right. exists (downvoted (getTodayKey now)). now repeat split.
Qed.

Lemma castVote_settings (now : Z) (v : Vote) (s : State) :
  lastResetDate (fst (castVote now v s)) = lastResetDate s
  /\ hidePurchased (fst (castVote now v s)) = hidePurchased s
  /\ sortMode (fst (castVote now v s)) = sortMode s.
Proof.
  destruct v as [id|id]; cbn [castVote].
  - unfold addPoint. destruct (remainingPoints s <=? 0); repeat split.
  - unfold removePoint.
    destruct (find (hasId id) (items s)) as [target|];
      [destruct (WishlistItem.points target <=? 0)|]; repeat split.
Qed.

(** X5. A vote, granted or refused, never adds, removes or reorders items,
    and writes nothing of an item but its points and its history: ids,
    names, prices, links, images, dates, purchase flags and options stay,
    position by position. Items of another id are untouched, and so are the
    reset date, the purchased filter and the sort mode. *)
Theorem votes_write_points_and_history_only (now : Z) (v : Vote) (s : State) :
  let s' := fst (castVote now v s) in
  map nonVoteFields (items s') = map nonVoteFields (items s)
  /\ otherThan (voteId v) (items s') = otherThan (voteId v) (items s)
  /\ lastResetDate s' = lastResetDate s
  /\ hidePurchased s' = hidePurchased s
  /\ sortMode s' = sortMode s.
Proof.
  cbv zeta. split; [|split; [|apply castVote_settings]].
  - destruct (castVote_items now v s) as [E|(f & K & _ & E)]; rewrite E;
      [reflexivity | now apply nonVoteFields_map].
  - destruct (castVote_items now v s) as [E|(f & _ & K & E)]; rewrite E;
      [reflexivity | now apply otherThan_vote].
Qed.

(** ** Points and budget together *)

Lemma totalPoints_vote (id : string) (f : Item -> Item) (l : list Item)
    (target : Item) :
  NoDup (map WishlistItem.id l) ->
  find (hasId id) l = Some target ->
  totalPoints (map (fun it => if hasId id it then f it else it) l) =
  totalPoints l + (WishlistItem.points (f target) - WishlistItem.points target).
Proof.
  induction l as [|it l IH]; intros N F; [discriminate F|].
  cbn [map totalPoints find] in *. inversion N as [|? ? NI N']; subst.
  destruct (hasId id it) eqn:E.
  - injection F as <-. apply hasId_true in E. rewrite E in NI.
    rewrite absent_map by exact NI. lia.
  - rewrite (IH N' F). lia.
Qed.

(** X6. When the ids are unique, granted votes move points between the
    budget and the item without creating or losing any: an upvote on an item
    that is there keeps the sum of [remainingPoints] and of all items'
    points, and so does a downvote on an item with points while the budget
    is below the maximum; at a full budget the downvote loses the point. *)
Theorem votes_conserve_points (now : Z) (id : string) (s : State) (target : Item) :
  uniqueIds s ->
  find (hasId id) (items s) = Some target ->
  0 <= remainingPoints s <= MAX_DAILY_POINTS ->
  (let s' := fst (addPoint now id s) in
   remainingPoints s' + totalPoints (items s') =
   remainingPoints s + totalPoints (items s))
  /\ (0 < WishlistItem.points target ->
      let s' := fst (removePoint now id s) in
      remainingPoints s' + totalPoints (items s') =
      remainingPoints s + totalPoints (items s)
      - (if remainingPoints s <? MAX_DAILY_POINTS then 0 else 1)).
Proof.
  intros U F B. split.
  - cbv zeta. destruct (Z.eq_dec (remainingPoints s) 0) as [Z0|NZ].
    + destruct (addPoint_refused now id s ltac:(lia)) as (I & R & _).
      now rewrite I, R.
    + destruct (addPoint_accepted now id s ltac:(lia)) as (I & R & _).
      rewrite I, R, (totalPoints_vote id _ _ target U F), upvoted_points. lia.
  - intros P. cbv zeta.
    destruct (removePoint_accepted now id s _ F P) as (I & _).
    rewrite I, removePoint_remainingPoints,
      (totalPoints_vote id _ _ target U F), downvoted_points.
    destruct (remainingPoints s <? MAX_DAILY_POINTS); lia.
Qed.

Lemma votes_conserve_points_witness :
  let s := Scenario.stateOf [Scenario.itemY; Scenario.itemX] 2 SortDate in
  (uniqueIds s /\ find (hasId "X") (items s) = Some Scenario.itemX
   /\ 0 <= remainingPoints s <= MAX_DAILY_POINTS)
  /\ remainingPoints (fst (addPoint Scenario.noon "X" s))
     + totalPoints (items (fst (addPoint Scenario.noon "X" s))) = 5.
Proof.
  assert (U : uniqueIds (Scenario.stateOf [Scenario.itemY; Scenario.itemX] 2 SortDate)).
  { unfold uniqueIds. simpl. repeat constructor; simpl; intuition discriminate. }
  assert (F : find (hasId "X")
                (items (Scenario.stateOf [Scenario.itemY; Scenario.itemX] 2 SortDate))
              = Some Scenario.itemX) by reflexivity.
  assert (B : 0 <= remainingPoints
                     (Scenario.stateOf [Scenario.itemY; Scenario.itemX] 2 SortDate)
              <= MAX_DAILY_POINTS)
    by (unfold MAX_DAILY_POINTS; simpl; lia).
  split; [repeat split; try assumption; apply B|].
  destruct (votes_conserve_points Scenario.noon "X" _ _ U F B) as [A _].
  exact A.
Defined.

(** ** The ranked list *)

Lemma sortedItems_by_mode (s : State) :
  sortedItems s =
  sort (compareDescending (keyOfMode (sortMode s))) (rankedSource s).
Proof.
  unfold sortedItems, rankedSource. destruct (sortMode s); reflexivity.
Qed.



Lemma In_rankedSource (s : State) (it : Item) :
  In it (rankedSource s) <->
  In it (if isSortingFrozen s then frozenItems s else items s)
  /\ (hidePurchased s = true -> WishlistItem.isPurchased it = false).
Proof.
  unfold rankedSource. destruct (hidePurchased s).
  - rewrite filter_In, negb_true_iff. tauto.
  - split; [intros H; split; [exact H | discriminate] | tauto].
Qed.

(** X8. Under every sort mode the list shown holds exactly the items of its
    source (the frozen snapshot when frozen, the live items otherwise),
    each as often as the source has it, without the purchased ones when
    they are hidden, in descending order of the key of the mode: points,
    creation instant or price. *)
Theorem ranked_view_is_sorted_source (s : State) :
  descendingBy (keyOfMode (sortMode s)) (sortedItems s)
  /\ Permutation (sortedItems s) (rankedSource s)
  /\ forall it,
       In it (sortedItems s) <->
       In it (if isSortingFrozen s then frozenItems s else items s)
       /\ (hidePurchased s = true -> WishlistItem.isPurchased it = false).
Proof.
  rewrite sortedItems_by_mode. split; [apply sort_descending|].
  split; [apply sort_perm|].
  intros it. rewrite <- In_rankedSource. split; intros H.
  - eapply Permutation_in; [apply sort_perm | exact H].
  - eapply Permutation_in; [symmetry; apply sort_perm | exact H].
Qed.

Lemma sameKey_sortInsert (key : Item -> Z) (k : Z) (x : Item) (l : list Item) :
  sameKey key k (sortInsert (compareDescending key) x l) =
  sameKey key k (x :: l).
Proof.
  induction l as [|y l IH]; [reflexivity|].
  cbn [sortInsert]. unfold compareDescending at 1.
  destruct (Z.leb_spec (key y - key x) 0) as [L|L]; [reflexivity|].
  unfold sameKey in *. cbn [filter] in *. rewrite IH.
  destruct (Z.eqb_spec (key x) k), (Z.eqb_spec (key y) k);
    try reflexivity; lia.
Qed.

Lemma sameKey_sort (key : Item -> Z) (k : Z) (l : list Item) :
  sameKey key k (sort (compareDescending key) l) = sameKey key k l.
Proof.
  induction l as [|x l IH]; [reflexivity|].
  unfold sort in *. cbn [fold_right]. rewrite sameKey_sortInsert.
  unfold sameKey in *. cbn [filter]. now rewrite IH.
Qed.

(** X9. The sort is stable: items with the same points (or the same
    creation instant, or the same price, by the mode) are listed in the
    order the source has them. *)
Theorem ranked_view_keeps_order_of_ties (s : State) (k : Z) :
  sameKey (keyOfMode (sortMode s)) k (sortedItems s) =
  sameKey (keyOfMode (sortMode s)) k (rankedSource s).
Proof. rewrite sortedItems_by_mode. apply sameKey_sort. Qed.

(** ** The event loop *)

Lemma filter_filter_implied {A : Type} (p q : A -> bool) (l : list A) :
  (forall x, p x = true -> q x = true) ->
  filter p (filter q l) = filter p l.
Proof.
  intros K. induction l as [|x l IH]; [reflexivity|].
  cbn [filter]. destruct (q x) eqn:Q.
  - cbn [filter]. now rewrite IH.
  - destruct (p x) eqn:P; [|exact IH]. apply K in P. congruence.
Qed.

Lemma filter_none_keeps_rest {A : Type} (p : A -> bool) (l : list A) :
  filter p l = [] -> filter (fun x => negb (p x)) l = l.
Proof.
  induction l as [|x l IH]; [reflexivity|].
  cbn [filter]. destruct (p x); [discriminate|].
  intros H. cbn [negb]. now rewrite IH.
Qed.

(** X10. Letting time pass never touches the items, the budget or the reset
    date, and never freezes the list; and it can be done in steps: reaching
    [t1] and then a later [t2] leaves the state that reaching [t2] at once
    leaves. *)
Theorem elapse_in_steps (t1 t2 : Z) (s : State) :
  t1 <= t2 ->
  elapse t2 (elapse t1 s) = elapse t2 s
  /\ items (elapse t1 s) = items s
  /\ remainingPoints (elapse t1 s) = remainingPoints s
  /\ lastResetDate (elapse t1 s) = lastResetDate s
  /\ (isSortingFrozen (elapse t1 s) = true -> isSortingFrozen s = true).
Proof.
  intros L.
  assert (K : forall d, negb (d <=? t2) = true -> negb (d <=? t1) = true).
  { intros d. rewrite !negb_true_iff, !Z.leb_gt. lia. }
  split.
  - unfold elapse at 2.
    destruct (filter (fun d => d <=? t1) (timers s)) as [|d1 l1] eqn:D1;
      [reflexivity|].
    assert (D2 : exists d2 l2,
               filter (fun d => d <=? t2) (timers s) = d2 :: l2).
    { destruct (filter (fun d => d <=? t2) (timers s)) as [|d2 l2] eqn:E;
        [|now exists d2, l2].
      exfalso.
      assert (I : In d1 (filter (fun d => d <=? t1) (timers s)))
        by (rewrite D1; now left).
      apply filter_In in I as [I B]. apply Z.leb_le in B.
      assert (J : In d1 (filter (fun d => d <=? t2) (timers s)))
        by (apply filter_In; split; [exact I | apply Z.leb_le; lia]).
      now rewrite E in J. }
    destruct D2 as (d2 & l2 & D2).
    unfold elapse. rewrite D2.
    cbn [timers items remainingPoints lastResetDate hidePurchased sortMode
         selectedItem frozenItems].
    rewrite (filter_filter_implied _ _ (timers s) K).
    destruct (filter (fun d => d <=? t2)
                (filter (fun d => negb (d <=? t1)) (timers s))) as [|d l] eqn:E;
      [|reflexivity].
    f_equal. apply filter_none_keeps_rest in E.
    rewrite <- E at 1. apply (filter_filter_implied _ _ (timers s) K).
  - unfold elapse.
    destruct (filter (fun d => d <=? t1) (timers s)); repeat split;
      try tauto; discriminate.
Qed.

Lemma elapse_in_steps_witness :
  let s := mkState [Scenario.itemX] 2 "2024-03-10" false SortPoints None true
             [Scenario.itemX] [1000; 1500; 4000] in
  1200 <= 2000
  /\ elapse 2000 (elapse 1200 s) = elapse 2000 s
  /\ timers (elapse 2000 s) = [4000]
  /\ isSortingFrozen (elapse 2000 s) = false.
Proof.
  assert (L : 1200 <= 2000) by lia.
  split; [exact L|].
  destruct (elapse_in_steps 1200 2000
              (mkState [Scenario.itemX] 2 "2024-03-10" false SortPoints None true
                 [Scenario.itemX] [1000; 1500; 4000]) L) as (E & _).
  split; [exact E|]. split; reflexivity.
Defined.

(** ** Purchases and deletions *)

Lemma map_unless_hasId (id : string) (f : Item -> Item) (l : list Item) :
  map (fun it => if negb (hasId id it) then it else f it) l =
  map (fun it => if hasId id it then f it else it) l.
Proof. apply map_ext. intros it. now destruct (hasId id it). Qed.

Lemma togglePurchased_items (now : Z) (id : string) (s : State) :
  items (togglePurchased now id s) =
  map (fun it => if hasId id it then toggled now it else it) (items s).
Proof.
  unfold togglePurchased. cbn [setItemsSel items].
  apply map_ext. intros it. now destruct (hasId id it).
Qed.

(** X11. Toggling the purchase flag keeps the purchase date in step with
    the flag: every item whose date was there exactly when it was purchased
    is still so after the toggle, and the toggled item is so in any case.
    The toggle writes no points and no budget, leaves the items of another
    id alone, and toggling twice returns every flag to what it was. *)
Theorem togglePurchased_keeps_dates_in_step (now now' : Z) (id : string) (s : State) :
  (Forall purchaseConsistent (items s) ->
   Forall purchaseConsistent (items (togglePurchased now id s)))
  /\ (forall it, In it (items (togglePurchased now id s)) ->
        hasId id it = true -> purchaseConsistent it)
  /\ map WishlistItem.points (items (togglePurchased now id s)) =
     map WishlistItem.points (items s)
  /\ remainingPoints (togglePurchased now id s) = remainingPoints s
  /\ otherThan id (items (togglePurchased now id s)) = otherThan id (items s)
  /\ map WishlistItem.isPurchased
       (items (togglePurchased now' id (togglePurchased now id s))) =
     map WishlistItem.isPurchased (items s).
Proof.
  assert (C : forall t it, purchaseConsistent (toggled t it)).
  { intros t it. unfold purchaseConsistent, toggled.
    cbn [WishlistItem.with_purchased WishlistItem.isPurchased
         WishlistItem.datePurchased].
    destruct (WishlistItem.isPurchased it); cbn [negb];
      split; [discriminate | congruence | discriminate | reflexivity]. }
  rewrite !togglePurchased_items.
  split; [|split; [|split; [|split; [reflexivity|split]]]].
  - intros H. apply Forall_map. eapply Forall_impl; [|exact H].
    intros it Hit. cbv beta. destruct (hasId id it); [apply C | exact Hit].
  - intros it I E. apply in_map_iff in I as (it0 & <- & _).
    destruct (hasId id it0) eqn:E0; [apply C|]. congruence.
  - rewrite map_map. apply map_ext. intros it. now destruct (hasId id it).
  - now apply otherThan_vote.
  - rewrite !map_map. apply map_ext. intros it.
    destruct (hasId id it) eqn:E; [|now rewrite E].
    unfold hasId, toggled in *.
    cbn [WishlistItem.with_purchased WishlistItem.id WishlistItem.isPurchased].
    rewrite E. cbn [WishlistItem.isPurchased]. apply negb_involutive.
Qed.

(** X12. With the purchased items hidden and the list not frozen, marking
    an item purchased takes it off the list and leaves every row of another
    id where it was listed. *)
Theorem purchased_item_leaves_filtered_list (now : Z) (id : string) (s : State) :
  hidePurchased s = true ->
  isSortingFrozen s = false ->
  Forall (fun it => hasId id it = true -> WishlistItem.isPurchased it = false)
         (items s) ->
  let s' := togglePurchased now id s in
  (forall it, In it (sortedItems s') -> hasId id it = false)
  /\ (forall it, hasId id it = false ->
        (In it (sortedItems s') <-> In it (sortedItems s))).
Proof.
  intros H U A s'.
  assert (R : forall st it, hidePurchased st = true -> isSortingFrozen st = false ->
              (In it (sortedItems st) <->
               In it (items st) /\ WishlistItem.isPurchased it = false)).
  { intros st it Hs Us. rewrite sortedItems_by_mode. split; intros X.
    - apply (Permutation_in _ (sort_perm _ _)) in X.
      apply In_rankedSource in X. rewrite Us in X. tauto.
    - apply (Permutation_in _ (Permutation_sym (sort_perm _ _))).
      apply In_rankedSource. rewrite Us. tauto. }
  assert (Hs' : hidePurchased s' = true) by exact H.
  assert (Us' : isSortingFrozen s' = false) by exact U.
  assert (I : items s' =
              map (fun it => if hasId id it then toggled now it else it) (items s))
    by apply togglePurchased_items.
  split.
  - intros it X. apply (R s' it Hs' Us') in X as [X P]. rewrite I in X.
    apply in_map_iff in X as (it0 & <- & I0).
    destruct (hasId id it0) eqn:E; [|exact E].
    rewrite Forall_forall in A. specialize (A it0 I0 E).
    unfold toggled in P. cbn in P. rewrite A in P. discriminate.
  - intros it E. rewrite (R s' it Hs' Us'), (R s it H U), I. split.
    + intros [X P]. split; [|exact P].
      apply in_map_iff in X as (it0 & <- & I0).
      destruct (hasId id it0) eqn:E0; [|exact I0].
      unfold hasId, toggled in *. cbn in E. congruence.
    + intros [X P]. split; [|exact P].
      apply in_map_iff. exists it. now rewrite E.
Qed.

Lemma purchased_item_leaves_filtered_list_witness :
  let s := mkState [Scenario.itemY; Scenario.itemX] 2 "2024-03-10" true
             SortPoints None false [] [] in
  (hidePurchased s = true /\ isSortingFrozen s = false)
  /\ map WishlistItem.id (sortedItems s) = ["X"; "Y"]
  /\ map WishlistItem.id (sortedItems (togglePurchased Scenario.noon "X" s)) = ["Y"]
  /\ forall it, In it (sortedItems (togglePurchased Scenario.noon "X" s)) ->
                hasId "X" it = false.
Proof.
  split; [split; reflexivity|]. split; [reflexivity|]. split; [reflexivity|].
  apply (purchased_item_leaves_filtered_list Scenario.noon "X"
           (mkState [Scenario.itemY; Scenario.itemX] 2 "2024-03-10" true
              SortPoints None false [] []) eq_refl eq_refl).
  repeat constructor; reflexivity.
Defined.

Lemma otherThan_absent (id : string) (l : list Item) :
  ~ In id (map WishlistItem.id l) -> otherThan id l = l.
Proof.
  induction l as [|it l IH]; intros A; [reflexivity|].
  cbn [otherThan filter map In] in *. destruct (hasId id it) eqn:E.
  - apply hasId_true in E. tauto.
  - cbn [negb]. f_equal. apply IH. tauto.
Qed.

Lemma otherThan_not_present (id : string) (l : list Item) :
  ~ In id (map WishlistItem.id (otherThan id l)).
Proof.
  intros I. apply in_map_iff in I as (it & E & I).
  apply filter_In in I as [_ N]. apply negb_true_iff in N.
  apply hasId_true in E. congruence.
Qed.

(** X13. Deleting an item removes every item of that id and nothing else,
    and does nothing when there is none. It does not reach the frozen
    snapshot: while the list is frozen the deleted item is still shown.
    A vote that arrives for the deleted id changes no item. *)
Theorem deleteItem_removes_only_that_id (now : Z) (id : string) (s : State) :
  ~ present id (deleteItem id s)
  /\ items (deleteItem id s) = otherThan id (items s)
  /\ (~ present id s -> items (deleteItem id s) = items s)
  /\ (isSortingFrozen s = true ->
      sortedItems (deleteItem id s) = sortedItems s)
  /\ items (fst (addPoint now id (deleteItem id s))) = items (deleteItem id s)
  /\ items (fst (removePoint now id (deleteItem id s))) =
     items (deleteItem id s).
Proof.
  assert (I : items (deleteItem id s) = otherThan id (items s)) by reflexivity.
  pose proof (otherThan_not_present id (items s)) as A. rewrite <- I in A.
  split; [exact A|].
  split; [exact I|]. split; [intros N; rewrite I; now apply otherThan_absent|].
  split; [|split].
  - intros F. unfold sortedItems, deleteItem, setItemsSel.
    cbn [isSortingFrozen frozenItems hidePurchased sortMode]. now rewrite F.
  - rewrite addPoint_items. destruct (remainingPoints _ <=? 0); [reflexivity|].
    now apply absent_map.
  - rewrite removePoint_items, (absent_find _ _ A). reflexivity.
Qed.

(** ** Options *)

Lemma withOptionAdded_valid (o : ItemOption.t) (it : Item) :
  selectionValid it -> selectionValid (withOptionAdded o it).
Proof.
  unfold selectionValid, withOptionAdded, optionsLengthIsZero.
  cbn [WishlistItem.with_options WishlistItem.selectedOptionId
       WishlistItem.options orNoOptions].
  destruct (WishlistItem.options it) as [[|o0 os]|]; cbn [orNoOptions].
  - intros _. exists o. split; [now left | reflexivity].
  - destruct (WishlistItem.selectedOptionId it); [|trivial].
    intros (x & I & E). exists x. split; [|exact E].
    apply in_or_app. now left.
  - destruct (WishlistItem.selectedOptionId it); [|trivial].
    intros (x & [] & _).
Qed.

Lemma withOptionDeleted_valid (optionId : string) (it : Item) :
  selectionValid it -> selectionValid (withOptionDeleted optionId it).
Proof.
  unfold selectionValid, withOptionDeleted.
  cbn [WishlistItem.with_options WishlistItem.selectedOptionId
       WishlistItem.options orNoOptions].
  destruct (WishlistItem.selectedOptionId it) as [sel|]; [|trivial].
  destruct (String.eqb_spec sel optionId) as [->|N].
  - intros _.
    destruct (filter (fun opt => negb (hasOptionId optionId opt))
                (orNoOptions (WishlistItem.options it))) as [|first rest];
      [trivial|].
    exists first. split; [now left | reflexivity].
  - intros (x & I & E). exists x. split; [|exact E].
    apply filter_In. split; [exact I|].
    apply negb_true_iff. unfold hasOptionId. apply String.eqb_neq. congruence.
Qed.

(** X14. The option handlers keep the selection sound. When every item's
    selected option is one of its options (or it has none selected), this
    still holds after [addOptionToItem] and after [deleteOption], for any
    ids; [selectOptionAsMain] keeps it when the option it is given is an
    option of the items it writes, and makes no check of its own. *)
Theorem option_edits_keep_selection_valid (s : State) :
  Forall selectionValid (items s) ->
  (forall itemId option,
     Forall selectionValid (items (addOptionToItem itemId option s)))
  /\ (forall itemId optionId,
        Forall selectionValid (items (deleteOption itemId optionId s)))
  /\ (forall itemId optionId,
        Forall (fun it => hasId itemId it = true ->
                  exists o, In o (orNoOptions (WishlistItem.options it))
                            /\ ItemOption.id o = optionId) (items s) ->
        Forall selectionValid (items (selectOptionAsMain itemId optionId s))).
Proof.
  intros V. split; [|split].
  - intros itemId option. unfold addOptionToItem. cbn [setItemsSel items].
    apply Forall_map. eapply Forall_impl; [|exact V]. intros it Hit. cbv beta.
    destruct (hasId itemId it); cbn [negb];
      [now apply withOptionAdded_valid | exact Hit].
  - intros itemId optionId. unfold deleteOption. cbn [setItemsSel items].
    apply Forall_map. eapply Forall_impl; [|exact V]. intros it Hit. cbv beta.
    destruct (hasId itemId it); cbn [negb];
      [now apply withOptionDeleted_valid | exact Hit].
  - intros itemId optionId O. unfold selectOptionAsMain. cbn [setItemsSel items].
    apply Forall_map. rewrite Forall_forall in *. intros it I. cbv beta.
    destruct (hasId itemId it) eqn:E; cbn [negb]; [|now apply V].
    unfold selectionValid.
    cbn [WishlistItem.selectedOptionId WishlistItem.options].
    now apply O.
Qed.

Lemma option_edits_keep_selection_valid_witness :
  let s := Scenario.stateOf [Scenario.itemA; Scenario.itemB] 3 SortPoints in
  Forall selectionValid (items s)
  /\ Forall selectionValid (items (deleteOption "A" "o1" s))
  /\ map WishlistItem.selectedOptionId (items (deleteOption "A" "o1" s))
     = [None; None].
Proof.
  assert (V : Forall selectionValid
                (items (Scenario.stateOf [Scenario.itemA; Scenario.itemB] 3 SortPoints))).
  { repeat constructor. exists Scenario.bikeOption. split; [now left | reflexivity]. }
  split; [exact V|].
  destruct (option_edits_keep_selection_valid _ V) as (_ & D & _).
  split; [apply D | reflexivity].
Defined.

Lemma getCurrentDisplayItem_cases (it : Item) :
  getCurrentDisplayItem it = it
  \/ exists opts sel o,
       WishlistItem.options it = Some opts
       /\ WishlistItem.selectedOptionId it = Some sel
       /\ truthy sel = true
       /\ find (hasOptionId sel) opts = Some o
       /\ getCurrentDisplayItem it = WishlistItem.with_display it o.
Proof.
  unfold getCurrentDisplayItem.
  destruct (WishlistItem.options it) as [opts|]; [|now left].
  destruct (WishlistItem.selectedOptionId it) as [sel|]; [|now left].
  destruct (truthy sel) eqn:T; [|now left].
  destruct (find (hasOptionId sel) opts) as [o|] eqn:F; [|now left].
  right. now exists opts, sel, o.
Qed.

(** X15. The display projection changes what a row shows and nothing else:
    the id, the points, the history, the dates, the purchase flag, the
    options and the selection of the displayed item are the item's own, so
    its trend is the item's; projecting twice is projecting once; and an
    item whose selection names none of its options is displayed as it
    is. *)
Theorem display_projection_keeps_the_item (now : Z) (it : Item) :
  let shown := getCurrentDisplayItem it in
  (WishlistItem.id shown = WishlistItem.id it
   /\ WishlistItem.points shown = WishlistItem.points it
   /\ WishlistItem.pointHistory shown = WishlistItem.pointHistory it
   /\ WishlistItem.dateAdded shown = WishlistItem.dateAdded it
   /\ WishlistItem.isPurchased shown = WishlistItem.isPurchased it
   /\ WishlistItem.datePurchased shown = WishlistItem.datePurchased it
   /\ WishlistItem.options shown = WishlistItem.options it
   /\ WishlistItem.selectedOptionId shown = WishlistItem.selectedOptionId it)
  /\ getTrendingStatus now shown = getTrendingStatus now it
  /\ getCurrentDisplayItem shown = shown
  /\ (find (hasOptionId (match WishlistItem.selectedOptionId it with
                         | Some sel => sel
                         | None => ""
                         end))
           (orNoOptions (WishlistItem.options it)) = None ->
      shown = it).
Proof.
  cbv zeta.
  destruct (getCurrentDisplayItem_cases it)
    as [E|(opts & sel & o & O & S & T & F & E)].
  - rewrite !E. split; [repeat split|split; [|split]]; reflexivity.
  - rewrite E. split; [repeat split|split; [reflexivity|split]].
    + unfold getCurrentDisplayItem.
      cbn [WishlistItem.with_display WishlistItem.options
           WishlistItem.selectedOptionId].
      now rewrite O, S, T, F.
    + rewrite O, S. cbn [orNoOptions]. congruence.
Qed.

Lemma find_map_unless (id : string) (f : Item -> Item) (l : list Item) :
  (forall it, WishlistItem.id (f it) = WishlistItem.id it) ->
  find (hasId id) (map (fun it => if negb (hasId id it) then it else f it) l) =
  option_map f (find (hasId id) l).
Proof.
  intros K. rewrite map_unless_hasId. now apply find_map_hasId.
Qed.

(** X16. Deleting the selected option moves the selection to the first
    option that remains, which the item then displays, and to none when no
    option remains, and then the item displays its own name, price, link
    and image again. *)
Theorem deleting_selected_option_moves_selection
    (itemId optionId : string) (s : State) (it : Item) :
  find (hasId itemId) (items s) = Some it ->
  WishlistItem.selectedOptionId it = Some optionId ->
  exists after,
    find (hasId itemId) (items (deleteOption itemId optionId s)) = Some after
    /\ WishlistItem.points after = WishlistItem.points it
    /\ match filter (fun opt => negb (hasOptionId optionId opt))
                    (orNoOptions (WishlistItem.options it)) with
       | [] =>
           WishlistItem.selectedOptionId after = None
           /\ WishlistItem.options after = Some []
           /\ getCurrentDisplayItem after = after
           /\ WishlistItem.name after = WishlistItem.name it
           /\ WishlistItem.price after = WishlistItem.price it
       | first :: rest =>
           WishlistItem.selectedOptionId after = Some (ItemOption.id first)
           /\ WishlistItem.options after = Some (first :: rest)
           /\ (ItemOption.id first <> "" ->
               WishlistItem.name (getCurrentDisplayItem after) =
                 ItemOption.name first
               /\ WishlistItem.price (getCurrentDisplayItem after) =
                    ItemOption.price first)
       end.
Proof.
  intros F S. exists (withOptionDeleted optionId it).
  split.
  - unfold deleteOption. cbn [setItemsSel items].
    rewrite find_map_unless by reflexivity. now rewrite F.
  - split; [reflexivity|].
    unfold withOptionDeleted. rewrite S, String.eqb_refl.
    destruct (filter (fun opt => negb (hasOptionId optionId opt))
                (orNoOptions (WishlistItem.options it))) as [|first rest].
    + repeat split.
    + split; [reflexivity|]. split; [reflexivity|].
      intros N. unfold getCurrentDisplayItem.
      cbn [WishlistItem.with_options WishlistItem.options
           WishlistItem.selectedOptionId].
      replace (truthy (ItemOption.id first)) with true
        by (symmetry; unfold truthy; apply negb_true_iff;
            now apply String.eqb_neq).
      cbn [find].
      replace (hasOptionId (ItemOption.id first) first) with true
        by (symmetry; apply String.eqb_refl).
      split; reflexivity.
Qed.

Lemma deleting_selected_option_moves_selection_witness :
  let s := Scenario.stateOf [Scenario.itemA; Scenario.itemB] 3 SortPoints in
  (find (hasId "A") (items s) = Some Scenario.itemA
   /\ WishlistItem.selectedOptionId Scenario.itemA = Some "o1")
  /\ exists after,
       find (hasId "A") (items (deleteOption "A" "o1" s)) = Some after
       /\ WishlistItem.points after = WishlistItem.points Scenario.itemA.
Proof.
  assert (F : find (hasId "A")
                (items (Scenario.stateOf [Scenario.itemA; Scenario.itemB] 3 SortPoints))
              = Some Scenario.itemA) by reflexivity.
  assert (S : WishlistItem.selectedOptionId Scenario.itemA = Some "o1")
    by reflexivity.
  split; [split; assumption|].
  destruct (deleting_selected_option_moves_selection "A" "o1" _ _ F S)
    as (after & A & P & _).
  exists after. split; assumption.
Defined.

(** ** Votes and the weekly points *)

Section VotesAndWeek.
Import IsoDate IsoDateFacts.

Lemma getTodayKey_day (now : Z) : getTodayKey now = keyOfDay (dayOf now).
Proof. reflexivity. Qed.

Lemma today_in_week (now : Z) :
  inRange (dayOf now - 7) -> inRange (dayOf now) ->
  str_ge (getTodayKey now) (sevenDaysAgoKey now) = true.
Proof.
  intros K R. rewrite getTodayKey_day, sevenDaysAgoKey_day.
  rewrite (str_ge_keyOfDay _ _ R K). apply Z.leb_le. lia.
Qed.

Lemma weeklyLoop_push (key : string) (h : list PointEntry.t) (e : PointEntry.t) :
  weeklyLoop key (h ++ [e]) 0 =
  weeklyLoop key h 0
  + (if str_ge (PointEntry.date e) key then PointEntry.points e else 0).
Proof.
  induction h as [|x h IH]; cbn [app weeklyLoop].
  - destruct (str_ge (PointEntry.date e) key); reflexivity.
  - destruct (str_ge (PointEntry.date x) key); [|exact IH].
    rewrite (weeklyLoop_acc key (h ++ [e])), (weeklyLoop_acc key h), IH. lia.
Qed.

Lemma weeklyLoop_updateFirst (key today : string) (f : Z -> Z)
    (h : list PointEntry.t) :
  str_ge today key = true ->
  weeklyLoop key (updateFirst (isToday today) f h) 0 =
  weeklyLoop key h 0
  + match deltaOn today h with
    | Some p => f p - p
    | None => 0
    end.
Proof.
  intros G. unfold deltaOn. induction h as [|e h IH]; [reflexivity|].
  cbn [updateFirst find]. destruct (isToday today e) eqn:E.
  - cbn [weeklyLoop option_map PointEntry.date PointEntry.points].
    unfold isToday in E. apply String.eqb_eq in E. rewrite E, G.
    rewrite (weeklyLoop_acc key h (0 + f _)), (weeklyLoop_acc key h (0 + _)).
    lia.
  - cbn [weeklyLoop]. destruct (str_ge (PointEntry.date e) key); [|exact IH].
    rewrite (weeklyLoop_acc key (updateFirst _ _ _)), (weeklyLoop_acc key h), IH.
    lia.
Qed.

Lemma getWeeklyPoints_upvoted (now : Z) (it : Item) :
  inRange (dayOf now - 7) -> inRange (dayOf now) ->
  getWeeklyPoints now (upvoted (getTodayKey now) it) = getWeeklyPoints now it + 1.
Proof.
  intros K R. pose proof (today_in_week now K R) as G.
  rewrite !getWeeklyPoints_loop.
  cbn [upvoted WishlistItem.with_points_history WishlistItem.pointHistory orEmpty].
  unfold upvoteHistory. cbv zeta.
  destruct (find (isToday (getTodayKey now))
              (orEmpty (WishlistItem.pointHistory it))) as [e|] eqn:F.
  - rewrite (weeklyLoop_updateFirst _ _ _ _ G). unfold deltaOn. rewrite F.
    cbn [option_map]. lia.
  - rewrite weeklyLoop_push. cbn [PointEntry.date PointEntry.points].
    now rewrite G.
Qed.

Lemma getWeeklyPoints_downvoted (now : Z) (it : Item) :
  inRange (dayOf now - 7) -> inRange (dayOf now) ->
  getWeeklyPoints now (downvoted (getTodayKey now) it) =
  getWeeklyPoints now it
  + match deltaOn (getTodayKey now) (orEmpty (WishlistItem.pointHistory it)) with
    | None => -1
    | Some e => Z.max 0 (e - 1) - e
    end.
Proof.
  intros K R. pose proof (today_in_week now K R) as G.
  rewrite !getWeeklyPoints_loop.
  cbn [downvoted WishlistItem.with_points_history WishlistItem.pointHistory orEmpty].
  unfold downvoteHistory. cbv zeta.
  destruct (find (isToday (getTodayKey now))
              (orEmpty (WishlistItem.pointHistory it))) as [e|] eqn:F.
  - rewrite (weeklyLoop_updateFirst _ _ _ _ G). unfold deltaOn. rewrite F.
    reflexivity.
  - rewrite weeklyLoop_push. cbn [PointEntry.date PointEntry.points].
    rewrite G. unfold deltaOn. now rewrite F.
Qed.

(** X17. A granted upvote raises the weekly points of the item, read at the
    instant of the vote, by exactly 1, so it never lowers the trend tier. A
    granted downvote lowers them by 1 when the day has no entry or a
    positive one, leaves them when the entry is 0, and raises them when the
    entry is negative, the entry being clamped to 0. (Years 0000 to
    9999.) *)
Theorem votes_move_weekly_points (now : Z) (id : string) (s : State)
    (target : Item) :
  IsoDate.inRange (IsoDate.dayOf now - 7) -> IsoDate.inRange (IsoDate.dayOf now) ->
  find (hasId id) (items s) = Some target ->
  (0 < remainingPoints s ->
   exists after,
     find (hasId id) (items (fst (addPoint now id s))) = Some after
     /\ getWeeklyPoints now after = getWeeklyPoints now target + 1
     /\ (getTrendingStatus now target = hot -> getTrendingStatus now after = hot)
     /\ (getTrendingStatus now after = none -> getTrendingStatus now target = none))
  /\ (0 < WishlistItem.points target ->
      exists after,
        find (hasId id) (items (fst (removePoint now id s))) = Some after
        /\ getWeeklyPoints now after =
           getWeeklyPoints now target
           + match deltaOn (getTodayKey now)
                     (orEmpty (WishlistItem.pointHistory target)) with
             | None => -1
             | Some e => Z.max 0 (e - 1) - e
             end).
Proof.
  intros K R F. split.
  - intros B. destruct (addPoint_accepted now id s B) as (I & _).
    exists (upvoted (getTodayKey now) target).
    rewrite I, find_map_hasId by reflexivity. rewrite F.
    split; [reflexivity|].
    pose proof (getWeeklyPoints_upvoted now target K R) as W.
    split; [exact W|].
    unfold getTrendingStatus. cbv zeta. rewrite W.
    destruct (Z.geb_spec (getWeeklyPoints now target) 10);
      destruct (Z.geb_spec (getWeeklyPoints now target) 5);
      destruct (Z.geb_spec (getWeeklyPoints now target + 1) 10);
      destruct (Z.geb_spec (getWeeklyPoints now target + 1) 5);
      split; intros; try reflexivity; try discriminate; lia.
  - intros P. destruct (removePoint_accepted now id s _ F P) as (I & _).
    exists (downvoted (getTodayKey now) target).
    rewrite I, find_map_hasId by reflexivity. rewrite F.
    split; [reflexivity|]. now apply getWeeklyPoints_downvoted.
Qed.

Lemma votes_move_weekly_points_witness :
  let s := Scenario.stateOf [Scenario.itemY; Scenario.itemX] 2 SortDate in
  (IsoDate.inRange (IsoDate.dayOf Scenario.noon - 7)
   /\ IsoDate.inRange (IsoDate.dayOf Scenario.noon)
   /\ find (hasId "Y") (items s) = Some Scenario.itemY
   /\ 0 < remainingPoints s)
  /\ exists after,
       find (hasId "Y") (items (fst (addPoint Scenario.noon "Y" s))) = Some after
       /\ getWeeklyPoints Scenario.noon after = 1.
Proof.
  assert (K : inRange (dayOf Scenario.noon - 7))
    by (split; vm_compute; discriminate).
  assert (R : inRange (dayOf Scenario.noon))
    by (split; vm_compute; discriminate).
  assert (F : find (hasId "Y")
                (items (Scenario.stateOf [Scenario.itemY; Scenario.itemX] 2 SortDate))
              = Some Scenario.itemY) by reflexivity.
  assert (B : 0 < remainingPoints
                    (Scenario.stateOf [Scenario.itemY; Scenario.itemX] 2 SortDate))
    by (simpl; lia).
  split; [repeat split; try assumption; apply K || apply R|].
  destruct (votes_move_weekly_points Scenario.noon "Y" _ _ K R F) as [U _].
  destruct (U B) as (after & A & W & _).
  exists after. split; [exact A|]. rewrite W. reflexivity.
Defined.

(** ** Day keys and the reset *)

Lemma keyOfDay_inj (a b : Z) :
  inRange a -> inRange b -> keyOfDay a = keyOfDay b -> a = b.
Proof.
  intros Ra Rb E. apply Z.compare_eq.
  rewrite <- (keyOfDay_compare a b Ra Rb), E.
  apply String_as_OT.cmp_eq. reflexivity.
Qed.

(** X18. Two instants have the same day-key exactly when they lie in the
    same UTC day, the day of an instant being its epoch milliseconds
    divided by 86400000, rounded down; so [checkAndResetDailyPoints], in a
    state last reset at [t0], writes nothing at an instant of the day of
    [t0], and at an instant of any other day sets the budget to the maximum
    and the reset date to the new key, the items staying as they are.
    (Years 0000 to 9999.) *)
Theorem reset_follows_utc_day (t0 now : Z) (s : State) :
  IsoDate.inRange (IsoDate.dayOf t0) -> IsoDate.inRange (IsoDate.dayOf now) ->
  lastResetDate s = getTodayKey t0 ->
  (getTodayKey t0 = getTodayKey now <-> t0 / 86400000 = now / 86400000)
  /\ (t0 / 86400000 = now / 86400000 -> checkAndResetDailyPoints now s = s)
  /\ (t0 / 86400000 <> now / 86400000 ->
      remainingPoints (checkAndResetDailyPoints now s) = MAX_DAILY_POINTS
      /\ lastResetDate (checkAndResetDailyPoints now s) = getTodayKey now
      /\ items (checkAndResetDailyPoints now s) = items s).
Proof.
  intros R0 R L.
  assert (E : getTodayKey t0 = getTodayKey now <-> t0 / 86400000 = now / 86400000).
  { rewrite !getTodayKey_day. change (t0 / 86400000) with (dayOf t0).
    change (now / 86400000) with (dayOf now). split.
    - now apply keyOfDay_inj.
    - now intros ->. }
  split; [exact E|]. unfold checkAndResetDailyPoints. cbv zeta. rewrite L. split.
  - intros D. apply E in D. rewrite D, String.eqb_refl. reflexivity.
  - intros D.
    replace (String.eqb (getTodayKey t0) (getTodayKey now)) with false.
    + repeat split.
    + symmetry. apply String.eqb_neq. intros X. apply D, E, X.
Qed.

Lemma reset_follows_utc_day_witness :
  let midnight := 86400000 * 19793 in
  let s := mkState [Scenario.itemX] 0 (getTodayKey Scenario.noon) false
             SortPoints None false [] [] in
  (IsoDate.inRange (IsoDate.dayOf Scenario.noon)
   /\ IsoDate.inRange (IsoDate.dayOf midnight)
   /\ lastResetDate s = getTodayKey Scenario.noon)
  /\ checkAndResetDailyPoints (midnight - 1) s = s
  /\ remainingPoints (checkAndResetDailyPoints midnight s) = MAX_DAILY_POINTS
  /\ lastResetDate (checkAndResetDailyPoints midnight s) = "2024-03-11".
Proof.
  assert (R0 : inRange (dayOf Scenario.noon))
    by (split; vm_compute; discriminate).
  assert (R : inRange (dayOf (86400000 * 19793)))
    by (split; vm_compute; discriminate).
  split; [repeat split; apply R0 || apply R|].
  destruct (reset_follows_utc_day Scenario.noon (86400000 * 19793)
              (mkState [Scenario.itemX] 0 (getTodayKey Scenario.noon) false
                 SortPoints None false [] []) R0 R eq_refl) as (_ & _ & D).
  split; [reflexivity|].
  destruct D as (B & _); [vm_compute; discriminate|].
  split; [exact B | reflexivity].
Defined.

End VotesAndWeek.

(** ** New items and their ids *)

Lemma Z_to_int_proper (z : Z) :
  Z.to_int z <> Decimal.Pos Decimal.Nil /\ Z.to_int z <> Decimal.Neg Decimal.Nil.
Proof.
  split; intros E; pose proof (DecimalZ.of_to z) as O; rewrite E in O;
    cbn in O; subst z; discriminate E.
Qed.

Lemma String_of_inj (a b : Z) : String_of a = String_of b -> a = b.
Proof.
  unfold String_of. intros E.
  destruct (Z_to_int_proper a) as [A1 A2]. destruct (Z_to_int_proper b) as [B1 B2].
  pose proof (NilZero.isi _ A1 A2) as Ia. pose proof (NilZero.isi _ B1 B2) as Ib.
  rewrite E in Ia. rewrite Ia in Ib. injection Ib as Ib.
  rewrite <- (DecimalZ.of_to a), <- (DecimalZ.of_to b). now rewrite Ib.
Qed.

Lemma saveNewItem_accepted (now : Z) (name : string) (price : Z)
    (link imageUrl : option string) (s : State) :
  name <> "" -> 0 <= price ->
  items (saveNewItem now name price link imageUrl s) =
  newItem now name price link imageUrl :: items s.
Proof.
  intros N P. unfold saveNewItem.
  replace (String.eqb name "") with false by (symmetry; now apply String.eqb_neq).
  replace (price <? 0) with false by (symmetry; apply Z.ltb_ge; exact P).
  reflexivity.
Qed.

(** X19. The id of a new item is the decimal text of its creation instant,
    so items created at different instants have different ids, and a list
    with unique ids stays so when the new id is not in it. Nothing checks
    this: two items saved in the same millisecond share their id. A save
    with an empty name or a negative price changes nothing. *)
Theorem new_item_ids (now : Z) (name : string) (price : Z)
    (link imageUrl : option string) (s : State) :
  name <> "" -> 0 <= price ->
  (forall t, WishlistItem.id (newItem t name price link imageUrl) =
             WishlistItem.id (newItem now name price link imageUrl) -> t = now)
  /\ (uniqueIds s -> ~ present (String_of now) s ->
      uniqueIds (saveNewItem now name price link imageUrl s))
  /\ ~ uniqueIds (saveNewItem now name price link imageUrl
                    (saveNewItem now name price link imageUrl s))
  /\ saveNewItem now "" price link imageUrl s = s
  /\ (forall p, p < 0 -> saveNewItem now name p link imageUrl s = s).
Proof.
  intros N P. split; [intros t E; now apply String_of_inj|].
  split; [|split; [|split]].
  - intros U A. unfold uniqueIds, present in *.
    rewrite saveNewItem_accepted by assumption. cbn [map newItem WishlistItem.id].
    now constructor.
  - unfold uniqueIds. rewrite !saveNewItem_accepted by assumption.
    cbn [map newItem WishlistItem.id]. intros U.
    inversion U as [|? ? NI _]. apply NI. now left.
  - reflexivity.
  - intros p L. unfold saveNewItem.
    destruct (String.eqb name ""); [reflexivity|].
    replace (p <? 0) with true by (symmetry; now apply Z.ltb_lt).
    reflexivity.
Qed.

Lemma new_item_ids_witness :
  let s := Scenario.stateOf [Scenario.itemB] 3 SortPoints in
  let s2 := saveNewItem (Scenario.noon + 1) "Tent" 0 None None
              (saveNewItem Scenario.noon "Bike" 900 None None s) in
  ("Bike" <> "" /\ 0 <= 900)
  /\ map WishlistItem.id (items s2) = ["1710072000001"; "1710072000000"; "B"]
  /\ ~ uniqueIds (saveNewItem Scenario.noon "Bike" 900 None None
                    (saveNewItem Scenario.noon "Bike" 900 None None s)).
Proof.
  assert (N : "Bike" <> "") by discriminate.
  assert (P : 0 <= 900) by lia.
  split; [split; assumption|]. split; [reflexivity|].
  destruct (new_item_ids Scenario.noon "Bike" 900 None None
              (Scenario.stateOf [Scenario.itemB] 3 SortPoints) N P)
    as (_ & _ & D & _).
  exact D.
Defined.

(** ** Editing an item *)

Lemma saveItemEdit_accepted (name : string) (price : option Z) (s : State)
    (sel : Item) :
  selectedItem s = Some sel -> name <> "" ->
  (forall p, price = Some p -> 0 <= p) ->
  saveItemEdit name price s =
  setItemsSel s
    (map (fun item => if hasId (WishlistItem.id sel) item
                      then edited name price item else item) (items s))
    (Some (edited name price sel)).
Proof.
  intros S N P. unfold saveItemEdit. rewrite S.
  replace (String.eqb name "") with false by (symmetry; now apply String.eqb_neq).
  destruct price as [p|]; [|reflexivity].
  replace (p <? 0) with false
    by (symmetry; apply Z.ltb_ge; now apply P).
  reflexivity.
Qed.

(** X20. An edit is refused, and changes nothing, without a selected item,
    with an empty name or with a negative price. An accepted edit writes
    the name and the price (0 for a blank price) of the items that have the
    id of the selected item, and of the selected item itself, and nothing
    else: points, histories, options, the budget and the other items stay.
    The edit is made on the item's own fields, so a row whose selected
    option is displayed shows the same name and price after the edit. *)
Theorem saveItemEdit_writes_name_and_price (name : string) (price : option Z)
    (s : State) :
  (selectedItem s = None -> saveItemEdit name price s = s)
  /\ saveItemEdit "" price s = s
  /\ (forall p, p < 0 -> saveItemEdit name (Some p) s = s)
  /\ (forall sel,
        selectedItem s = Some sel -> name <> "" ->
        (forall p, price = Some p -> 0 <= p) ->
        let s' := saveItemEdit name price s in
        selectedItem s' = Some (edited name price sel)
        /\ remainingPoints s' = remainingPoints s
        /\ map WishlistItem.points (items s') = map WishlistItem.points (items s)
        /\ map WishlistItem.pointHistory (items s') =
           map WishlistItem.pointHistory (items s)
        /\ map WishlistItem.options (items s') =
           map WishlistItem.options (items s)
        /\ otherThan (WishlistItem.id sel) (items s') =
           otherThan (WishlistItem.id sel) (items s)
        /\ (forall it, In it (items s') -> hasId (WishlistItem.id sel) it = true ->
              WishlistItem.name it = name
              /\ WishlistItem.price it = priceOrZero price)
        /\ (forall it, getCurrentDisplayItem it <> it ->
              getCurrentDisplayItem (edited name price it) =
              getCurrentDisplayItem it)).
Proof.
  split; [intros S; unfold saveItemEdit; now rewrite S|].
  split; [unfold saveItemEdit; now destruct (selectedItem s)|].
  split.
  { intros p P. unfold saveItemEdit. destruct (selectedItem s); [|reflexivity].
    destruct (String.eqb name ""); [reflexivity|].
    replace (p <? 0) with true by (symmetry; now apply Z.ltb_lt).
    reflexivity. }
  intros sel S N P s'. unfold s'.
  rewrite (saveItemEdit_accepted name price s sel S N P).
  cbn [setItemsSel selectedItem remainingPoints items].
  split; [reflexivity|]. split; [reflexivity|].
  split; [rewrite map_map; apply map_ext; intros it; now destruct (hasId _ it)|].
  split; [rewrite map_map; apply map_ext; intros it; now destruct (hasId _ it)|].
  split; [rewrite map_map; apply map_ext; intros it; now destruct (hasId _ it)|].
  split; [now apply otherThan_vote|]. split.
  - intros it I E. apply in_map_iff in I as (it0 & <- & _).
    destruct (hasId (WishlistItem.id sel) it0) eqn:E0; [now split|]. congruence.
  - intros it D.
    destruct (getCurrentDisplayItem_cases it)
      as [E|(opts & osel & o & O & So & T & F & E)]; [congruence|].
    rewrite E. unfold getCurrentDisplayItem.
    cbn [edited WishlistItem.options WishlistItem.selectedOptionId].
    now rewrite O, So, T, F.
Qed.

Lemma saveItemEdit_writes_name_and_price_witness :
  let s := mkState [Scenario.itemA; Scenario.itemB] 3 "2024-03-10" false
             SortPoints (Some Scenario.itemA) false [] [] in
  let s' := saveItemEdit "City bike" None s in
  map WishlistItem.name (items s') = ["City bike"; "B"]
  /\ map WishlistItem.price (items s') = [0; 50]
  /\ map WishlistItem.name (displayedItems s') = ["Road bike"; "B"]
  /\ selectedItem s' = Some (edited "City bike" None Scenario.itemA).
Proof.
  split; [reflexivity|]. split; [reflexivity|]. split; [reflexivity|].
  destruct (saveItemEdit_writes_name_and_price "City bike" None
              (mkState [Scenario.itemA; Scenario.itemB] 3 "2024-03-10" false
                 SortPoints (Some Scenario.itemA) false [] []))
    as (_ & _ & _ & A).
  destruct (A Scenario.itemA eq_refl) as (S & _);
    [discriminate | discriminate | exact S].
Defined.

(** ** More options *)

Lemma find_app_found {A : Type} (p : A -> bool) (l r : list A) (x : A) :
  find p l = Some x -> find p (l ++ r) = Some x.
Proof.
  induction l as [|y l IH]; [discriminate|].
  cbn [find app]. destruct (p y); [trivial | exact IH].
Qed.

Lemma find_hasOptionId_valid (sel : string) (opts : list ItemOption.t) :
  (exists o, In o opts /\ ItemOption.id o = sel) ->
  exists o, find (hasOptionId sel) opts = Some o.
Proof.
  intros (o & I & E).
  destruct (find (hasOptionId sel) opts) as [x|] eqn:F; [now exists x|].
  exfalso. apply (find_none _ _ F) in I. unfold hasOptionId in I.
  rewrite E, String.eqb_refl in I. discriminate.
Qed.

(** X21. Adding an option to an item that already has options, and whose
    selection is sound, changes nothing of what the item displays: the
    selection stays, the new option goes to the end of the list, and the
    displayed name, price, link and image are those of before. The points
    and the history of the item stay too. *)
Theorem further_option_keeps_display (itemId : string) (option : ItemOption.t)
    (s : State) (it : Item) :
  find (hasId itemId) (items s) = Some it ->
  selectionValid it ->
  WishlistItem.options it <> Some [] ->
  exists after,
    find (hasId itemId) (items (addOptionToItem itemId option s)) = Some after
    /\ WishlistItem.options after =
       Some (orNoOptions (WishlistItem.options it) ++ [option])%list
    /\ WishlistItem.selectedOptionId after = WishlistItem.selectedOptionId it
    /\ WishlistItem.points after = WishlistItem.points it
    /\ WishlistItem.pointHistory after = WishlistItem.pointHistory it
    /\ WishlistItem.name (getCurrentDisplayItem after) =
       WishlistItem.name (getCurrentDisplayItem it)
    /\ WishlistItem.price (getCurrentDisplayItem after) =
       WishlistItem.price (getCurrentDisplayItem it)
    /\ WishlistItem.link (getCurrentDisplayItem after) =
       WishlistItem.link (getCurrentDisplayItem it)
    /\ WishlistItem.imageUrl (getCurrentDisplayItem after) =
       WishlistItem.imageUrl (getCurrentDisplayItem it).
Proof.
  intros F V NE. exists (withOptionAdded option it). split.
  - unfold addOptionToItem. cbn [setItemsSel items].
    rewrite find_map_unless by reflexivity. now rewrite F.
  - assert (Z0 : optionsLengthIsZero it = false).
    { unfold optionsLengthIsZero.
      destruct (WishlistItem.options it) as [[|o os]|]; congruence. }
    unfold withOptionAdded. rewrite Z0.
    split; [reflexivity|]. split; [reflexivity|]. split; [reflexivity|].
    split; [reflexivity|].
    unfold getCurrentDisplayItem, selectionValid in *.
    cbn [WishlistItem.with_options WishlistItem.options
         WishlistItem.selectedOptionId].
    destruct (WishlistItem.selectedOptionId it) as [sel|].
    + destruct (find_hasOptionId_valid sel _ V) as (o & Fo).
      rewrite (find_app_found _ _ [option] _ Fo).
      destruct (WishlistItem.options it) as [opts|];
        [|cbn in Fo; discriminate].
      cbn [orNoOptions] in Fo. rewrite Fo.
      destruct (truthy sel); repeat split.
    + destruct (WishlistItem.options it); repeat split.
Qed.

Lemma further_option_keeps_display_witness :
  let s := Scenario.stateOf [Scenario.itemA; Scenario.itemB] 3 SortPoints in
  let cheap := ItemOption.mk "o2" "Used bike" 40 None None in
  (find (hasId "A") (items s) = Some Scenario.itemA
   /\ selectionValid Scenario.itemA
   /\ WishlistItem.options Scenario.itemA <> Some [])
  /\ map WishlistItem.name (displayedItems (addOptionToItem "A" cheap s))
     = ["Road bike"; "B"]
  /\ exists after,
       find (hasId "A") (items (addOptionToItem "A" cheap s)) = Some after
       /\ WishlistItem.selectedOptionId after = Some "o1".
Proof.
  assert (F : find (hasId "A")
                (items (Scenario.stateOf [Scenario.itemA; Scenario.itemB] 3 SortPoints))
              = Some Scenario.itemA) by reflexivity.
  assert (V : selectionValid Scenario.itemA)
    by (exists Scenario.bikeOption; split; [now left | reflexivity]).
  assert (NE : WishlistItem.options Scenario.itemA <> Some []) by discriminate.
  split; [repeat split; assumption|]. split; [reflexivity|].
  destruct (further_option_keeps_display "A"
              (ItemOption.mk "o2" "Used bike" 40 None None) _ _ F V NE)
    as (after & A & _ & S & _).
  exists after. split; [exact A | exact S].
Defined.

(** ** Storage *)

(** X22. What is stored comes back: loading the stored state gives the
    stored items in every case, and the stored budget when the day of the
    load is the stored reset date; on another day the budget is the
    maximum. With nothing stored, or nothing readable, there are no items
    and the budget is the maximum. The reset date after a load is the day
    of the load, so the reset check that follows on that day writes
    nothing; and a budget and points that were in range are in range after
    the load. *)
Theorem load_gives_back_the_stored_state (now : Z) (s s0 : State) :
  let s' := load now (Some (persist s)) s0 in
  items s' = items s
  /\ lastResetDate s' = getTodayKey now
  /\ remainingPoints s' =
     (if String.eqb (lastResetDate s) (getTodayKey now) then remainingPoints s
      else MAX_DAILY_POINTS)
  /\ (lastResetDate s = getTodayKey now ->
      persist s' = persist s)
  /\ checkAndResetDailyPoints now s' = s'
  /\ (budgetInRange s -> budgetInRange s')
  /\ (pointsNonNegative s -> pointsNonNegative s')
  /\ items (load now None s0) = []
  /\ remainingPoints (load now None s0) = MAX_DAILY_POINTS
  /\ checkAndResetDailyPoints now (load now None s0) = load now None s0.
Proof.
  cbv zeta. unfold load, persist.
  cbn [PersistedState.items PersistedState.remainingPoints
       PersistedState.lastResetDate items lastResetDate remainingPoints].
  split; [reflexivity|]. split; [reflexivity|]. split; [reflexivity|].
  split.
  { intros L. rewrite L, String.eqb_refl. reflexivity. }
  split.
  { unfold checkAndResetDailyPoints. cbn [lastResetDate].
    now rewrite String.eqb_refl. }
  split.
  { unfold budgetInRange, MAX_DAILY_POINTS. cbn [remainingPoints].
    destruct (String.eqb (lastResetDate s) (getTodayKey now)); lia. }
  split; [trivial|]. split; [reflexivity|]. split; [reflexivity|].
  unfold checkAndResetDailyPoints. cbn [lastResetDate].
  now rewrite String.eqb_refl.
Qed.

(** ** The frozen list *)

(** X23. Under sort mode points the list shown right after a vote is the
    sort of the items as they were before that vote: the rows keep their
    places and still show the points of before, the point just given or
    taken becoming visible only when a timer unfreezes the list, or with
    the next vote, which moves the snapshot to the items before it. *)
Theorem vote_under_points_mode_shows_items_of_before (now : Z) (v : Vote)
    (s : State) :
  sortMode s = SortPoints ->
  let s' := fst (castVote now v s) in
  map rowOf (sortedItems s') =
  map rowOf (sort byPoints
               (if hidePurchased s
                then filter (fun i => negb (WishlistItem.isPurchased i)) (items s)
                else items s))
  /\ (isSortingFrozen s = false ->
      map rowOf (sortedItems s') = map rowOf (sortedItems s)).
Proof.
  intros M s'.
  assert (E : sortedItems s' =
              sort byPoints
                (if hidePurchased s
                 then filter (fun i => negb (WishlistItem.isPurchased i)) (items s)
                 else items s)).
  { destruct (castVote_settings now v s) as (_ & H & K). fold s' in H, K.
    assert (F : isSortingFrozen s' = true /\ frozenItems s' = items s).
    { unfold s'. destruct v as [id|id]; cbn [castVote].
      - destruct (addPoint_frozen now id s) as (F & I & _).
        rewrite F, I, M. now split.
      - destruct (removePoint_frozen now id s) as (F & I & _).
        rewrite F, I, M. now split. }
    destruct F as [F I]. unfold sortedItems. now rewrite F, I, H, K, M. }
  split; [now rewrite E|].
  intros U. rewrite E. unfold sortedItems. now rewrite U, M.
Qed.

Lemma vote_under_points_mode_shows_items_of_before_witness :
  let s := Scenario.stateOf [Scenario.itemY; Scenario.itemX] 5 SortPoints in
  let s1 := fst (castVote Scenario.noon (Upvote "Y") s) in
  sortMode s = SortPoints
  /\ map rowOf (sortedItems s1) = [("X", 3); ("Y", 0)]
  /\ map rowOf (sortedItems (elapse (Scenario.noon + 1000) s1))
     = [("X", 3); ("Y", 1)].
Proof.
  split; [reflexivity|].
  destruct (vote_under_points_mode_shows_items_of_before Scenario.noon
              (Upvote "Y")
              (Scenario.stateOf [Scenario.itemY; Scenario.itemX] 5 SortPoints)
              eq_refl) as [A _].
  split; [exact A | reflexivity].
Defined.

(** ** An invariant of all the handlers *)

Lemma Forall_map_where {A : Type} (P : A -> Prop) (c : A -> bool) (f : A -> A)
    (l : list A) :
  (forall x, P x -> P (f x)) ->
  Forall P l -> Forall P (map (fun x => if c x then f x else x) l).
Proof.
  intros K H. apply Forall_map. eapply Forall_impl; [|exact H].
  intros x Px. cbv beta. destruct (c x); [now apply K | exact Px].
Qed.

Lemma Forall_map_unless {A : Type} (P : A -> Prop) (c : A -> bool) (f : A -> A)
    (l : list A) :
  (forall x, P x -> P (f x)) ->
  Forall P l -> Forall P (map (fun x => if negb (c x) then x else f x) l).
Proof.
  intros K H. apply Forall_map. eapply Forall_impl; [|exact H].
  intros x Px. cbv beta. destruct (c x); [now apply K | exact Px].
Qed.

Lemma perform_keeps_invariant (a : Action) (s : State) :
  engineInvariant s -> engineInvariant (perform a s).
Proof.
  unfold engineInvariant. intros [B I]. destruct a; cbn [perform].
  - split; [now apply castVote_budget|].
    destruct (castVote_items now v s) as [E|(f & K & _ & E)]; rewrite E;
      [exact I|].
    assert (P : pointsNonNegative (fst (castVote now v s))).
    { apply castVote_points. unfold pointsNonNegative.
      eapply Forall_impl; [|exact I]. now intros it [H _]. }
    unfold pointsNonNegative in P. rewrite E in P.
    apply Forall_map. apply (proj1 (Forall_map _ _ _)) in P.
    rewrite Forall_forall in *. intros it Hit. split; [exact (P it Hit)|].
    destruct (I it Hit) as [_ C]. cbv beta.
    destruct (hasId (voteId v) it); [|exact C].
    pose proof (K it) as N. unfold purchaseConsistent in *.
    assert (E1 : WishlistItem.isPurchased (f it) = WishlistItem.isPurchased it)
      by exact (f_equal WishlistItem.isPurchased N).
    assert (E2 : WishlistItem.datePurchased (f it) = WishlistItem.datePurchased it)
      by exact (f_equal WishlistItem.datePurchased N).
    now rewrite E1, E2.
  - unfold elapse, budgetInRange in *.
    destruct (filter (fun d => d <=? t) (timers s)); now split.
  - unfold checkAndResetDailyPoints, budgetInRange, MAX_DAILY_POINTS in *.
    destruct (negb _); cbn [remainingPoints items]; split;
      try assumption; lia.
  - unfold resetDailyPoints, budgetInRange, MAX_DAILY_POINTS in *.
    cbn [remainingPoints items]. split; [lia | exact I].
  - split; [exact B|]. unfold togglePurchased. cbn [setItemsSel items].
    apply Forall_map_unless; [|exact I]. intros it [P _]. split; [exact P|].
    unfold purchaseConsistent.
    cbn [WishlistItem.with_purchased WishlistItem.isPurchased
         WishlistItem.datePurchased].
    destruct (WishlistItem.isPurchased it); cbn [negb];
      split; [discriminate | congruence | discriminate | reflexivity].
  - split; [exact B|]. unfold deleteItem. cbn [setItemsSel items].
    rewrite Forall_forall in *. intros it Hit. apply filter_In in Hit as [Hit _].
    now apply I.
  - split; [exact B|]. unfold addOptionToItem. cbn [setItemsSel items].
    apply Forall_map_unless; [|exact I]. now intros it H.
  - split; [exact B|]. unfold selectOptionAsMain. cbn [setItemsSel items].
    apply Forall_map_unless; [|exact I]. now intros it H.
  - split; [exact B|]. unfold deleteOption. cbn [setItemsSel items].
    apply Forall_map_unless; [|exact I]. now intros it H.
  - split.
    + unfold saveNewItem. destruct (String.eqb name ""); [exact B|].
      destruct (price <? 0); exact B.
    + unfold saveNewItem. destruct (String.eqb name ""); [exact I|].
      destruct (price <? 0); [exact I|]. cbn [setItemsSel items].
      constructor; [|exact I]. split; [cbn; lia|].
      unfold purchaseConsistent. cbn. split; [discriminate | congruence].
  - unfold saveItemEdit. destruct (selectedItem s) as [sel|]; [|now split].
    destruct (String.eqb name ""); [now split|].
    destruct (match price with Some p => p <? 0 | None => false end);
      [now split|].
    split; [exact B|]. cbn [setItemsSel items].
    apply Forall_map_where; [|exact I]. now intros it H.
Qed.

(** X24. Not the votes alone but every handler of the engine (votes,
    timers, the daily reset and the manual one, the purchase toggle,
    deletion, the option handlers, creation and edit of an item) keeps the
    budget within 0 and the maximum, the points of every item at 0 or
    more, and the purchase date present exactly on the purchased items:
    from a state where this holds it holds after each call of any sequence
    of calls. *)
Theorem handlers_keep_engine_invariant (actions : list Action) (s : State) :
  engineInvariant s ->
  Forall engineInvariant (performAll actions s).
Proof.
  revert s. induction actions as [|a rest IH]; intros s H; cbn [performAll].
  - constructor.
  - pose proof (perform_keeps_invariant a s H) as H'.
    constructor; [exact H' | now apply IH].
Qed.

Lemma handlers_keep_engine_invariant_witness :
  let s := Scenario.stateOf [Scenario.itemA; Scenario.itemX] 1 SortPoints in
  let actions :=
    [Cast Scenario.noon (Upvote "X"); Cast (Scenario.noon + 1) (Upvote "X");
     TogglePurchased (Scenario.noon + 2) "A"; Elapse (Scenario.noon + 2000);
     SaveNew (Scenario.noon + 3000) "Tent" 120 None None;
     CheckAndReset (Scenario.noon + 86400000); Delete "X"] in
  engineInvariant s
  /\ Forall engineInvariant (performAll actions s)
  /\ map remainingPoints (performAll actions s) = [0; 0; 0; 0; 0; 15; 15].
Proof.
  assert (H : engineInvariant
                (Scenario.stateOf [Scenario.itemA; Scenario.itemX] 1 SortPoints)).
  { split; [unfold budgetInRange, MAX_DAILY_POINTS; simpl; lia|].
    repeat constructor; cbn; try lia; try discriminate; congruence. }
  split; [exact H|]. split; [|reflexivity].
  apply handlers_keep_engine_invariant. exact H.
Defined.
